(** * WebScrcpy-MobileAgent: the device bridge, the mirroring session and
      the session registry, embedded from [adb_manager.py], [scrcpy.py] and
      [app.py].

    A Python [str] is held as the [string] of the bytes of its UTF-8
    encoding: this is how a literal of this file is stored and how the text
    of the bridge tool reaches the program ([encoding='utf-8']).  The
    separators and the words the program looks for are ASCII, and in UTF-8
    an ASCII byte is always a character of its own, so [split], [in] and
    concatenation work on the bytes as Python works on the characters.  What
    depends on the class of a character ([strip], [\d], [lower]) works on the
    characters of the text, [PyStr.chars].

    Python [int] is [Z], [None]-able attributes are [option], dicts keyed by
    device id are [gmap string _].  Everything the program asks of the
    operating system (running the bridge tool, sockets, threads, child
    processes) is answered by an environment the theorems quantify over. *)

From stdpp Require Import gmap strings list pretty.
From Stdlib Require Import ZArith NArith Lia Ascii.
From Stdlib Require String.

Open Scope Z_scope.

(** ** Python string operations used by the sources *)

Module PyStr.

Definition LF : ascii := "010"%char.
Definition TAB : ascii := "009"%char.

(** [needle in hay] *)
Fixpoint contains (needle hay : string) : bool :=
  String.prefix needle hay ||
  match hay with
  | EmptyString => false
  | String _ hay' => contains needle hay'
  end.

(** [c in s] for a single ASCII character *)
Fixpoint has_char (c : ascii) (s : string) : bool :=
  match s with
  | EmptyString => false
  | String d s' => Ascii.eqb c d || has_char c s'
  end.

(** [s.split(sep)] for a one-character ASCII separator: never empty, and a
    trailing separator yields a trailing empty field. *)
Fixpoint split (sep : ascii) (s : string) : list string :=
  match s with
  | EmptyString => [EmptyString]
  | String c s' =>
      if Ascii.eqb c sep then EmptyString :: split sep s'
      else match split sep s' with
           | [] => [String c EmptyString]
           | w :: ws => String c w :: ws
           end
  end.

(** truthiness of a [str] *)
Definition truthy (s : string) : bool :=
  match s with EmptyString => false | _ => true end.

Fixpoint drop (n : nat) (s : string) : string :=
  match n, s with
  | O, _ => s
  | S n', String _ s' => drop n' s'
  | S _, EmptyString => EmptyString
  end.

Fixpoint take (n : nat) (s : string) : string :=
  match n, s with
  | S n', String c s' => String c (take n' s')
  | _, _ => EmptyString
  end.

(** ["".join(pieces)] *)
Definition concat (pieces : list string) : string :=
  foldr String.append EmptyString pieces.

(** *** The characters of a text *)

Definition byte (c : ascii) : N := N_of_ascii c.

(** The six bits carried by a continuation byte [10xxxxxx]. *)
Definition continuation (c : ascii) : option N :=
  if ((128 <=? byte c) && (byte c <? 192))%N then Some (byte c - 128)%N else None.

Definition surrogate (c : N) : bool := ((55296 <=? c) && (c <=? 57343))%N.

(** The code point a text starts with and the number of bytes it takes, as
    the strict UTF-8 decoder reads them: no overlong form, no surrogate,
    nothing above U+10FFFF. *)
Definition code_point (s : string) : option (N * nat) :=
  match s with
  | EmptyString => None
  | String b0 s1 =>
      let n := byte b0 in
      if (n <? 128)%N then Some (n, 1%nat)
      else if (n <? 194)%N then None
      else if (n <? 224)%N then
        match s1 with
        | String b1 _ =>
            match continuation b1 with
            | Some x1 => Some (((n - 192) * 64 + x1)%N, 2%nat)
            | None => None
            end
        | EmptyString => None
        end
      else if (n <? 240)%N then
        match s1 with
        | String b1 (String b2 _) =>
            match continuation b1, continuation b2 with
            | Some x1, Some x2 =>
                let c := ((n - 224) * 4096 + x1 * 64 + x2)%N in
                if (2048 <=? c)%N && negb (surrogate c) then Some (c, 3%nat) else None
            | _, _ => None
            end
        | _ => None
        end
      else if (n <? 245)%N then
        match s1 with
        | String b1 (String b2 (String b3 _)) =>
            match continuation b1, continuation b2, continuation b3 with
            | Some x1, Some x2, Some x3 =>
                let c := ((n - 240) * 262144 + x1 * 4096 + x2 * 64 + x3)%N in
                if ((65536 <=? c) && (c <=? 1114111))%N then Some (c, 4%nat) else None
            | _, _, _ => None
            end
        | _ => None
        end
      else None
  end.

(** [list(s)]: the characters of [s], each as the text of its own bytes.
    At most one character starts at each byte, so the length of the text is
    fuel enough.  A byte that starts no character (there is none in a
    [str]) is kept on its own, so that no byte is lost. *)
Fixpoint chars_fuel (fuel : nat) (s : string) : list string :=
  match fuel, s with
  | S fuel', String b s' =>
      match code_point s with
      | Some (_, w) => take w s :: chars_fuel fuel' (drop w s)
      | None => String b EmptyString :: chars_fuel fuel' s'
      end
  | _, _ => []
  end.

Definition chars (s : string) : list string := chars_fuel (String.length s) s.

(** [ord(ch)] *)
Definition ord (ch : string) : option N := option_map fst (code_point ch).

Definition in_ranges (ranges : list (N * N)) (c : N) : bool :=
  existsb (λ r, (r.1 <=? c) && (c <=? r.2))%N ranges.

(** The code points [str.isspace] accepts, and so the ones [str.strip]
    removes: TAB..CR, FS..US and the blank, NEL, NBSP, the Ogham space mark,
    EN QUAD..HAIR SPACE, the line and paragraph separators, the narrow
    no-break space, the medium mathematical space and the ideographic
    space. *)
Definition whitespace : list (N * N) :=
  [(9, 13); (28, 32); (133, 133); (160, 160); (5760, 5760); (8192, 8202);
   (8232, 8233); (8239, 8239); (8287, 8287); (12288, 12288)]%N.

(** The decimal digits (general category Nd) of Unicode 14.0.0, the
    database of CPython 3.11: the characters [str.isdecimal] accepts, which
    are the ones [\d] matches in a [str] pattern. *)
Definition decimal : list (N * N) :=
  [(48, 57); (1632, 1641); (1776, 1785); (1984, 1993); (2406, 2415); (2534, 2543);
   (2662, 2671); (2790, 2799); (2918, 2927); (3046, 3055); (3174, 3183);
   (3302, 3311); (3430, 3439); (3558, 3567); (3664, 3673); (3792, 3801);
   (3872, 3881); (4160, 4169); (4240, 4249); (6112, 6121); (6160, 6169);
   (6470, 6479); (6608, 6617); (6784, 6793); (6800, 6809); (6992, 7001);
   (7088, 7097); (7232, 7241); (7248, 7257); (42528, 42537); (43216, 43225);
   (43264, 43273); (43472, 43481); (43504, 43513); (43600, 43609); (44016, 44025);
   (65296, 65305); (66720, 66729); (68912, 68921); (69734, 69743); (69872, 69881);
   (69942, 69951); (70096, 70105); (70384, 70393); (70736, 70745); (70864, 70873);
   (71248, 71257); (71360, 71369); (71472, 71481); (71904, 71913); (72016, 72025);
   (72784, 72793); (73040, 73049); (73120, 73129); (92768, 92777); (92864, 92873);
   (93008, 93017); (120782, 120831); (123200, 123209); (123632, 123641);
   (125264, 125273); (130032, 130041)]%N.

(** [ch.isspace()] and [ch.isdecimal()] for one character *)
Definition isspace (ch : string) : bool :=
  match ord ch with Some c => in_ranges whitespace c | None => false end.

Definition isdecimal (ch : string) : bool :=
  match ord ch with Some c => in_ranges decimal c | None => false end.

(** *** [str.strip] *)

Fixpoint lstrip_chars (l : list string) : list string :=
  match l with
  | [] => []
  | ch :: l' => if isspace ch then lstrip_chars l' else l
  end.

Fixpoint rstrip_chars (l : list string) : list string :=
  match l with
  | [] => []
  | ch :: l' =>
      match rstrip_chars l' with
      | [] => if isspace ch then [] else [ch]
      | r => ch :: r
      end
  end.

(** [s.strip()] *)
Definition strip (s : string) : string :=
  concat (rstrip_chars (lstrip_chars (chars s))).

(** *** [str.lower] *)

Definition lower_ascii (c : ascii) : ascii :=
  let n := nat_of_ascii c in
  if ((65 <=? n) && (n <=? 90))%nat then ascii_of_nat (n + 32) else c.

Definition KELVIN_SIGN : string :=                       (* U+212A *)
  String "226" (String "132" (String "170" EmptyString)).
Definition CAPITAL_I_WITH_DOT : string :=                (* U+0130 *)
  String "196" (String "176" EmptyString).
Definition COMBINING_DOT_ABOVE : string :=               (* U+0307 *)
  String "204" (String "135" EmptyString).

(** The lower case of one character.  The letters A..Z, and the two
    characters outside ASCII whose lower case has an ASCII letter in it: the
    Kelvin sign (k) and the dotted capital I (i, then a combining dot).
    Every other character outside ASCII is kept as it is: Python maps it to
    characters outside ASCII again, so where an ASCII word occurs in the
    lowered text is the same here and there. *)
Definition lower_char (ch : string) : string :=
  match ch with
  | String c EmptyString => String (lower_ascii c) EmptyString
  | _ =>
      if String.eqb ch KELVIN_SIGN then "k"
      else if String.eqb ch CAPITAL_I_WITH_DOT then String.append "i" COMBINING_DOT_ABOVE
      else ch
  end.

(** [s.lower()] *)
Definition lower (s : string) : string := concat (map lower_char (chars s)).

End PyStr.

(** ** A fragment of [re]: literals and greedy [\d+], with backtracking.
    The subject is the list of the characters of the text. *)

Module Re.

Inductive atom :=
| Chr (c : ascii)      (* a literal ASCII character, [\.] included *)
| Digits.              (* [\d+] *)

Fixpoint lit (s : string) : list atom :=
  match s with
  | EmptyString => []
  | String c s' => Chr c :: lit s'
  end.

(** Try the lengths [n], [n-1], ..., [1] in that order (greedy first). *)
Fixpoint backtrack {A} (f : nat → option A) (n : nat) : option A :=
  match n with
  | O => None
  | S m => match f (S m) with
           | Some x => Some x
           | None => backtrack f m
           end
  end.

(** number of decimal digits the subject starts with *)
Fixpoint digit_run (s : list string) : nat :=
  match s with
  | ch :: s' => if PyStr.isdecimal ch then S (digit_run s') else O
  | [] => O
  end.

(** [match_here p s] matches the atoms [p] at the start of [s] and returns
    the characters consumed by each atom. *)
Fixpoint match_here (p : list atom) (s : list string) : option (list (list string)) :=
  match p with
  | [] => Some []
  | Chr c :: p' =>
      match s with
      | ch :: s' =>
          if String.eqb ch (String c EmptyString)
          then option_map (cons [ch]) (match_here p' s')
          else None
      | [] => None
      end
  | Digits :: p' =>
      backtrack
        (λ k, option_map (cons (List.firstn k s)) (match_here p' (List.skipn k s)))
        (digit_run s)
  end.

(** A pattern [pre(grp)]: atoms before the one capturing group, and the
    atoms of the group. *)
Record pattern := { pre : list atom; grp : list atom }.

(** [m.group(1)] of a match of [pat] at the start of [s] *)
Definition match_at (pat : pattern) (s : list string) : option string :=
  option_map
    (λ pieces, PyStr.concat (List.concat (List.skipn (length (pre pat)) pieces)))
    (match_here (pre pat ++ grp pat) s).

(** [re.search(pat, s)]: the leftmost position at which [pat] matches;
    the result is [group(1)] of that match. *)
Fixpoint search (pat : pattern) (s : list string) : option string :=
  match match_at pat s with
  | Some g => Some g
  | None => match s with
            | [] => None
            | _ :: s' => search pat s'
            end
  end.

End Re.

(** ** [subprocess.run] as seen by the callers *)

Inductive run_result :=
| Completed (returncode : Z) (stdout stderr : string)
| RunError (msg : string).     (* [subprocess.run] itself raised; [msg] is [str(e)] *)

(** The argument vector every bridge call starts with. *)
Definition adb_cmd (adb_path : string) (device_id : option string)
    (command : list string) : list string :=
  [adb_path] ++
  match device_id with
  | Some d => if PyStr.truthy d then ["-s"; d] else []
  | None => []
  end ++ command.

(** ** adb_manager.py *)

Module ADBManager.

Record t := {
  adb_path : string;
  current_device : option string;
  is_tcp_mode : bool
}.

Definition init (path : string) : t :=
  {| adb_path := path; current_device := None; is_tcp_mode := false |}.

Record device := {
  id : string;
  state : string;
  is_tcp : bool
}.

Section Bridge.

(** The tool: what running an argument vector yields. *)
Variable subprocess_run : list string → run_result.

Definition _run_adb_command (self : t) (command : list string)
    (device_id : option string) : bool * string :=
  match subprocess_run (adb_cmd (adb_path self) device_id command) with
  | Completed rc out err => (Z.eqb rc 0, if Z.eqb rc 0 then out else err)
  | RunError msg => (false, msg)
  end.

Definition parse_line (line : string) : option device :=
  if PyStr.truthy (PyStr.strip line) then
    match PyStr.split PyStr.TAB line with
    | p0 :: p1 :: _ =>
        Some {| id := p0; state := p1; is_tcp := PyStr.has_char ":" p0 |}
    | _ => None
    end
  else None.

Definition get_devices (self : t) : list device :=
  let '(success, output) := _run_adb_command self ["devices"] None in
  if negb success then []
  else omap parse_line (List.skipn 1 (PyStr.split PyStr.LF output)).

(** [r'src (\d+\.\d+\.\d+\.\d+)'] *)
Definition ip_pattern : Re.pattern :=
  {| Re.pre := Re.lit "src ";
     Re.grp := [Re.Digits; Re.Chr "."; Re.Digits; Re.Chr ".";
                Re.Digits; Re.Chr "."; Re.Digits] |}.

Definition get_device_ip (self : t) : option string :=
  let '(success, output) := _run_adb_command self ["shell"; "ip"; "route"] None in
  if negb success then None
  else Re.search ip_pattern (PyStr.chars output).

Definition connect_to_device (self : t) (ip : string) (port : Z)
    : (bool * string) * t :=
  let address := ip +:+ ":" +:+ pretty port in
  let '(success, output) := _run_adb_command self ["connect"; address] None in
  let out_lower := PyStr.lower output in
  if success && (PyStr.contains "connected" out_lower
                 || PyStr.contains "already connected" out_lower)
  then ((true, output),
        {| adb_path := adb_path self;
           current_device := Some address;
           is_tcp_mode := true |})
  else ((false, output), self).

Definition disconnect_device (self : t) (ip : option string) (port : Z)
    : bool * t :=
  let '(success, _) :=
    match ip with
    | Some a => if PyStr.truthy a
                then _run_adb_command self ["disconnect"; a +:+ ":" +:+ pretty port] None
                else _run_adb_command self ["disconnect"] None
    | None => _run_adb_command self ["disconnect"] None
    end in
  if success
  then (true, {| adb_path := adb_path self; current_device := None;
                 is_tcp_mode := false |})
  else (false, self).

(** Truthiness of a pair: a tuple of two elements is not empty. *)
Definition pair_truthy {A B} (p : A * B) : bool := true.

(** [enable_tcp_mode]; the second component is the device address on success
    and the reason otherwise.  [time.sleep(1)] leaves no trace in the model. *)
Definition enable_tcp_mode (self : t) : (bool * string) * t :=
  let devices := get_devices self in
  let usb_devices := List.filter (λ d, negb (is_tcp d)) devices in
  match usb_devices with
  | [] => ((false, "没有找到通过USB连接的设备"), self)
  | _ :: _ =>
      match get_device_ip self with
      | Some ip =>
          if PyStr.truthy ip then
            let '(success, output) := _run_adb_command self ["tcpip"; "5555"] None in
            if negb success then ((false, "启用TCP/IP模式失败: " +:+ output), self)
            else
              let '(connected, self') := connect_to_device self ip 5555 in
              if pair_truthy connected then ((true, ip), self')
              else ((false, "TCP/IP连接失败"), self')
          else ((false, "无法获取设备IP地址"), self)
      | None => ((false, "无法获取设备IP地址"), self)
      end
  end.

End Bridge.

End ADBManager.


(** ** The interpreter's world: exceptions, sockets, threads, processes *)

Inductive exn :=
| CalledProcessError (returncode : Z)   (* [subprocess.run(..., check=True)] *)
| TimeoutExpired                        (* [Popen.wait(timeout=...)] *)
| OSError (msg : string)                (* socket errors, a tool that cannot be executed *)
| OverflowError                         (* [bind] to a port outside 0..65535 *)
| RuntimeError                          (* [Thread.start] *)
| TypeError
| AttributeError
| PortsExhausted (max_attempts : nat).  (* the [Exception] of [find_available_port] *)

Inductive res (A : Type) :=
| Ret (a : A)
| Raise (e : exn).
Arguments Ret {A} a.
Arguments Raise {A} e.

Definition is_OSError (e : exn) : bool :=
  match e with OSError _ => true | _ => false end.

Definition is_TimeoutExpired (e : exn) : bool :=
  match e with TimeoutExpired => true | _ => false end.

(** [str(e)], as it appears in the diagnostics the program prints *)
Definition str_exn (e : exn) : string :=
  match e with
  | CalledProcessError rc => "Command returned non-zero exit status " +:+ pretty rc +:+ "."
  | TimeoutExpired => "Command timed out"
  | OSError msg => msg
  | OverflowError => "bind(): port must be 0-65535."
  | RuntimeError => "can't start new thread"
  | TypeError => "TypeError"
  | AttributeError => "AttributeError"
  | PortsExhausted n => "no available port after " +:+ pretty (Z.of_nat n) +:+ " attempts"
  end.

(** Handles are numbers handed out in order of creation. *)
Definition sock := nat.
Definition thread := nat.
Definition proc := nat.

(** What the operating system answers.  Every request is stamped with the
    number of requests made before it, so one environment fixes the outcome
    of each single call of a run and different calls are unrelated. *)
Record Env := {
  env_run : nat → list string → run_result;  (* [subprocess.run] of an argument vector *)
  env_bindable : nat → Z → bool;             (* can 127.0.0.1:port be bound now? *)
  env_socket : nat → bool;                   (* [socket.socket()] succeeds *)
  env_connect : nat → bool;                  (* [sock.connect] succeeds *)
  env_shutdown : nat → bool;                 (* [sock.shutdown] succeeds *)
  env_close : nat → bool;                    (* [sock.close] reports no error *)
  env_thread_start : nat → bool;             (* [Thread.start] succeeds *)
  env_running : nat → bool;                  (* a started thread has not finished yet *)
  env_join : nat → bool;                     (* the joined thread finishes within the timeout *)
  env_popen : nat → bool;                    (* [subprocess.Popen] succeeds *)
  env_wait : nat → bool                      (* the child exits within the timeout *)
}.

Record World := {
  tick : nat;                        (* requests made so far *)
  commands : list (list string);     (* argument vectors run so far, newest first *)
  stdout : list string;              (* lines printed so far, newest first *)
  next_sock : nat;
  closed : gset nat;                 (* sockets that have been closed *)
  next_proc : nat;
  exited : gset nat;                 (* child processes that have exited *)
  next_thread : nat;
  alive : gset nat                   (* threads started and not yet finished *)
}.

Definition World_init : World :=
  {| tick := 0%nat; commands := []; stdout := []; next_sock := 0%nat; closed := ∅;
     next_proc := 0%nat; exited := ∅; next_thread := 0%nat; alive := ∅ |}.

(** A socket is live when it was created and has not been closed since;
    a child process is live when it was spawned and has not exited. *)
Definition sock_live (w : World) (s : sock) : Prop :=
  (s < next_sock w)%nat ∧ s ∉ closed w.
Definition proc_live (w : World) (p : proc) : Prop :=
  (p < next_proc w)%nat ∧ p ∉ exited w.

Definition w_step (w : World) : World :=
  {| tick := S (tick w); commands := commands w; stdout := stdout w;
     next_sock := next_sock w; closed := closed w;
     next_proc := next_proc w; exited := exited w;
     next_thread := next_thread w; alive := alive w |}.

Definition w_command (cmd : list string) (w : World) : World :=
  {| tick := S (tick w); commands := cmd :: commands w; stdout := stdout w;
     next_sock := next_sock w; closed := closed w;
     next_proc := next_proc w; exited := exited w;
     next_thread := next_thread w; alive := alive w |}.

Definition w_print (line : string) (w : World) : World :=
  {| tick := tick w; commands := commands w; stdout := line :: stdout w;
     next_sock := next_sock w; closed := closed w;
     next_proc := next_proc w; exited := exited w;
     next_thread := next_thread w; alive := alive w |}.

Definition w_new_sock (w : World) : World :=
  {| tick := S (tick w); commands := commands w; stdout := stdout w;
     next_sock := S (next_sock w); closed := closed w;
     next_proc := next_proc w; exited := exited w;
     next_thread := next_thread w; alive := alive w |}.

Definition w_close (s : sock) (w : World) : World :=
  {| tick := S (tick w); commands := commands w; stdout := stdout w;
     next_sock := next_sock w; closed := {[s]} ∪ closed w;
     next_proc := next_proc w; exited := exited w;
     next_thread := next_thread w; alive := alive w |}.

Definition w_new_proc (cmd : list string) (w : World) : World :=
  {| tick := S (tick w); commands := cmd :: commands w; stdout := stdout w;
     next_sock := next_sock w; closed := closed w;
     next_proc := S (next_proc w); exited := exited w;
     next_thread := next_thread w; alive := alive w |}.

Definition w_exit (p : proc) (w : World) : World :=
  {| tick := S (tick w); commands := commands w; stdout := stdout w;
     next_sock := next_sock w; closed := closed w;
     next_proc := next_proc w; exited := {[p]} ∪ exited w;
     next_thread := next_thread w; alive := alive w |}.

Definition w_new_thread (w : World) : World :=
  {| tick := tick w; commands := commands w; stdout := stdout w;
     next_sock := next_sock w; closed := closed w;
     next_proc := next_proc w; exited := exited w;
     next_thread := S (next_thread w); alive := alive w |}.

Definition w_thread_started (t : thread) (w : World) : World :=
  {| tick := S (tick w); commands := commands w; stdout := stdout w;
     next_sock := next_sock w; closed := closed w;
     next_proc := next_proc w; exited := exited w;
     next_thread := next_thread w; alive := {[t]} ∪ alive w |}.

Definition w_thread_ended (t : thread) (w : World) : World :=
  {| tick := S (tick w); commands := commands w; stdout := stdout w;
     next_sock := next_sock w; closed := closed w;
     next_proc := next_proc w; exited := exited w;
     next_thread := next_thread w; alive := alive w ∖ {[t]} |}.

(** ** scrcpy.py *)

Module Scrcpy.

Definition SCRCPY_SERVER_PATH : string := "scrcpy-server".
Definition DEVICE_SERVER_PATH : string := "/data/local/tmp/scrcpy-server.jar".
Definition BASE_PORT : Z := 6666.

(** The attributes of a [Scrcpy] object.  [stop], [video_bit_rate] and
    [video_callback] do not exist until [scrcpy_start] (or, for [stop],
    [scrcpy_stop]) assigns them: [None] stands for the missing attribute. *)
Record t := {
  video_socket : option sock;
  audio_socket : option sock;
  control_socket : option sock;
  android_thread : option thread;
  video_thread : option thread;
  audio_thread : option thread;
  control_thread : option thread;
  android_process : option proc;
  adb_manager : ADBManager.t;
  adb_path : string;
  device_id : option string;
  local_port : option Z;
  stop : option bool;
  video_bit_rate : option string;
  video_callback : option nat
}.

(** [__init__] *)
Definition init (path : string) : t :=
  {| video_socket := None; audio_socket := None; control_socket := None;
     android_thread := None; video_thread := None; audio_thread := None;
     control_thread := None; android_process := None;
     adb_manager := ADBManager.init path; adb_path := path;
     device_id := None; local_port := None;
     stop := None; video_bit_rate := None; video_callback := None |}.

Definition set_video_socket (v : option sock) (s : t) : t :=
  {| video_socket := v; audio_socket := audio_socket s; control_socket := control_socket s;
     android_thread := android_thread s; video_thread := video_thread s;
     audio_thread := audio_thread s; control_thread := control_thread s;
     android_process := android_process s; adb_manager := adb_manager s;
     adb_path := adb_path s; device_id := device_id s; local_port := local_port s;
     stop := stop s; video_bit_rate := video_bit_rate s; video_callback := video_callback s |}.

Definition set_audio_socket (v : option sock) (s : t) : t :=
  {| video_socket := video_socket s; audio_socket := v; control_socket := control_socket s;
     android_thread := android_thread s; video_thread := video_thread s;
     audio_thread := audio_thread s; control_thread := control_thread s;
     android_process := android_process s; adb_manager := adb_manager s;
     adb_path := adb_path s; device_id := device_id s; local_port := local_port s;
     stop := stop s; video_bit_rate := video_bit_rate s; video_callback := video_callback s |}.

Definition set_control_socket (v : option sock) (s : t) : t :=
  {| video_socket := video_socket s; audio_socket := audio_socket s; control_socket := v;
     android_thread := android_thread s; video_thread := video_thread s;
     audio_thread := audio_thread s; control_thread := control_thread s;
     android_process := android_process s; adb_manager := adb_manager s;
     adb_path := adb_path s; device_id := device_id s; local_port := local_port s;
     stop := stop s; video_bit_rate := video_bit_rate s; video_callback := video_callback s |}.

Definition set_android_thread (v : option thread) (s : t) : t :=
  {| video_socket := video_socket s; audio_socket := audio_socket s;
     control_socket := control_socket s;
     android_thread := v; video_thread := video_thread s;
     audio_thread := audio_thread s; control_thread := control_thread s;
     android_process := android_process s; adb_manager := adb_manager s;
     adb_path := adb_path s; device_id := device_id s; local_port := local_port s;
     stop := stop s; video_bit_rate := video_bit_rate s; video_callback := video_callback s |}.

Definition set_video_thread (v : option thread) (s : t) : t :=
  {| video_socket := video_socket s; audio_socket := audio_socket s;
     control_socket := control_socket s;
     android_thread := android_thread s; video_thread := v;
     audio_thread := audio_thread s; control_thread := control_thread s;
     android_process := android_process s; adb_manager := adb_manager s;
     adb_path := adb_path s; device_id := device_id s; local_port := local_port s;
     stop := stop s; video_bit_rate := video_bit_rate s; video_callback := video_callback s |}.

Definition set_audio_thread (v : option thread) (s : t) : t :=
  {| video_socket := video_socket s; audio_socket := audio_socket s;
     control_socket := control_socket s;
     android_thread := android_thread s; video_thread := video_thread s;
     audio_thread := v; control_thread := control_thread s;
     android_process := android_process s; adb_manager := adb_manager s;
     adb_path := adb_path s; device_id := device_id s; local_port := local_port s;
     stop := stop s; video_bit_rate := video_bit_rate s; video_callback := video_callback s |}.

Definition set_control_thread (v : option thread) (s : t) : t :=
  {| video_socket := video_socket s; audio_socket := audio_socket s;
     control_socket := control_socket s;
     android_thread := android_thread s; video_thread := video_thread s;
     audio_thread := audio_thread s; control_thread := v;
     android_process := android_process s; adb_manager := adb_manager s;
     adb_path := adb_path s; device_id := device_id s; local_port := local_port s;
     stop := stop s; video_bit_rate := video_bit_rate s; video_callback := video_callback s |}.

Definition set_android_process (v : option proc) (s : t) : t :=
  {| video_socket := video_socket s; audio_socket := audio_socket s;
     control_socket := control_socket s;
     android_thread := android_thread s; video_thread := video_thread s;
     audio_thread := audio_thread s; control_thread := control_thread s;
     android_process := v; adb_manager := adb_manager s;
     adb_path := adb_path s; device_id := device_id s; local_port := local_port s;
     stop := stop s; video_bit_rate := video_bit_rate s; video_callback := video_callback s |}.

Definition set_device_id (v : option string) (s : t) : t :=
  {| video_socket := video_socket s; audio_socket := audio_socket s;
     control_socket := control_socket s;
     android_thread := android_thread s; video_thread := video_thread s;
     audio_thread := audio_thread s; control_thread := control_thread s;
     android_process := android_process s; adb_manager := adb_manager s;
     adb_path := adb_path s; device_id := v; local_port := local_port s;
     stop := stop s; video_bit_rate := video_bit_rate s; video_callback := video_callback s |}.

Definition set_local_port (v : option Z) (s : t) : t :=
  {| video_socket := video_socket s; audio_socket := audio_socket s;
     control_socket := control_socket s;
     android_thread := android_thread s; video_thread := video_thread s;
     audio_thread := audio_thread s; control_thread := control_thread s;
     android_process := android_process s; adb_manager := adb_manager s;
     adb_path := adb_path s; device_id := device_id s; local_port := v;
     stop := stop s; video_bit_rate := video_bit_rate s; video_callback := video_callback s |}.

Definition set_stop (v : option bool) (s : t) : t :=
  {| video_socket := video_socket s; audio_socket := audio_socket s;
     control_socket := control_socket s;
     android_thread := android_thread s; video_thread := video_thread s;
     audio_thread := audio_thread s; control_thread := control_thread s;
     android_process := android_process s; adb_manager := adb_manager s;
     adb_path := adb_path s; device_id := device_id s; local_port := local_port s;
     stop := v; video_bit_rate := video_bit_rate s; video_callback := video_callback s |}.

Definition set_video_bit_rate (v : option string) (s : t) : t :=
  {| video_socket := video_socket s; audio_socket := audio_socket s;
     control_socket := control_socket s;
     android_thread := android_thread s; video_thread := video_thread s;
     audio_thread := audio_thread s; control_thread := control_thread s;
     android_process := android_process s; adb_manager := adb_manager s;
     adb_path := adb_path s; device_id := device_id s; local_port := local_port s;
     stop := stop s; video_bit_rate := v; video_callback := video_callback s |}.

Definition set_video_callback (v : option nat) (s : t) : t :=
  {| video_socket := video_socket s; audio_socket := audio_socket s;
     control_socket := control_socket s;
     android_thread := android_thread s; video_thread := video_thread s;
     audio_thread := audio_thread s; control_thread := control_thread s;
     android_process := android_process s; adb_manager := adb_manager s;
     adb_path := adb_path s; device_id := device_id s; local_port := local_port s;
     stop := stop s; video_bit_rate := video_bit_rate s; video_callback := v |}.

(** *** Methods run on an object and a world, and return or raise *)

Record St := { self : t; world : World }.

Definition M (A : Type) : Type := St → res A * St.

Definition ret {A} (a : A) : M A := λ st, (Ret a, st).

Definition bind {A B} (c : M A) (f : A → M B) : M B := λ st,
  match c st with
  | (Ret a, st') => f a st'
  | (Raise e, st') => (Raise e, st')
  end.

Definition raise {A} (e : exn) : M A := λ st, (Raise e, st).

(** [try: c except <filter> as e: h e] *)
Definition try_except {A} (c : M A) (filter : exn → bool) (h : exn → M A) : M A := λ st,
  match c st with
  | (Ret a, st') => (Ret a, st')
  | (Raise e, st') => if filter e then h e st' else (Raise e, st')
  end.

(** [try: c finally: f] *)
Definition try_finally {A} (c : M A) (f : M unit) : M A := λ st,
  match c st with
  | (r, st') => match f st' with
                | (Ret _, st'') => (r, st'')
                | (Raise e, st'') => (Raise e, st'')
                end
  end.

Definition any_Exception (e : exn) : bool := true.

Definition get {A} (f : t → A) : M A := λ st, (Ret (f (self st)), st).

Definition modify (f : t → t) : M unit := λ st,
  (Ret tt, {| self := f (self st); world := world st |}).

Definition on_world (f : World → World) : M unit := λ st,
  (Ret tt, {| self := self st; world := f (world st) |}).

Declare Scope py_scope.
Delimit Scope py_scope with py.
Notation "'let*' x := c 'in' k" := (Scrcpy.bind c (λ x, k))
  (at level 10, x name, c at level 100, k at level 200) : py_scope.
Notation "c >> k" := (Scrcpy.bind c (λ _, k))
  (at level 100, k at level 200, right associativity) : py_scope.
Open Scope py_scope.

Definition print (line : string) : M unit := on_world (w_print line).

(** [str(x)] of an attribute that may be [None] *)
Definition fmt_opt (o : option string) : string :=
  match o with Some s => s | None => "None" end.

Definition fmt_port (o : option Z) : string :=
  match o with Some p => pretty p | None => "None" end.

(** truthiness of [self.local_port]: [None] and [0] are false *)
Definition port_truthy (o : option Z) : bool :=
  match o with Some p => negb (p =? 0) | None => false end.

(** *** Port probing *)

(** [s.bind(('127.0.0.1', port))] on a fresh socket, closed again by the
    [with] block: [bindable] says which ports are free. *)
Definition try_bind (bindable : Z → bool) (port : Z) : res unit :=
  if (port <? 0) || (65535 <? port) then Raise OverflowError
  else if bindable port then Ret tt
  else Raise (OSError "Address already in use").

(** The loop of [find_available_port]: [i] is the loop index, [n] the
    number of iterations left. *)
Fixpoint probe (bindable : Z → bool) (start_port : Z) (max_attempts i n : nat) : res Z :=
  match n with
  | O => Raise (PortsExhausted max_attempts)
  | S n' =>
      let port := start_port + Z.of_nat i in
      match try_bind bindable port with
      | Ret _ => Ret port
      | Raise e => if is_OSError e
                   then probe bindable start_port max_attempts (S i) n'
                   else Raise e
      end
  end.

Definition find_available_port_in (bindable : Z → bool)
    (start_port : Z) (max_attempts : nat) : res Z :=
  probe bindable start_port max_attempts 0 max_attempts.

Section Methods.

Variable E : Env.

(** *** Requests to the operating system *)

(** [subprocess.run(cmd, check=check)]; returns [(returncode, stdout, stderr)] *)
Definition subprocess_run (cmd : list string) (check : bool) : M (Z * string * string) := λ st,
  let st' := {| self := self st; world := w_command cmd (world st) |} in
  match env_run E (tick (world st)) cmd with
  | RunError msg => (Raise (OSError msg), st')
  | Completed rc out err =>
      if check && negb (rc =? 0) then (Raise (CalledProcessError rc), st')
      else (Ret (rc, out, err), st')
  end.

(** [socket.socket(AF_INET, SOCK_STREAM)] *)
Definition socket_socket : M sock := λ st,
  if env_socket E (tick (world st))
  then (Ret (next_sock (world st)), {| self := self st; world := w_new_sock (world st) |})
  else (Raise (OSError "socket"), {| self := self st; world := w_step (world st) |}).

(** [sock.connect(('localhost', port))] *)
Definition sock_connect (s : sock) (port : option Z) : M unit := λ st,
  match port with
  | None => (Raise TypeError, st)
  | Some _ =>
      let st' := {| self := self st; world := w_step (world st) |} in
      if env_connect E (tick (world st)) then (Ret tt, st')
      else (Raise (OSError "Connection refused"), st')
  end.

(** [sock.shutdown(SHUT_RDWR)] *)
Definition sock_shutdown (s : sock) : M unit := λ st,
  let st' := {| self := self st; world := w_step (world st) |} in
  if env_shutdown E (tick (world st)) then (Ret tt, st')
  else (Raise (OSError "shutdown"), st').

(** [sock.close()]: the descriptor is released even when an error is reported *)
Definition sock_close (s : sock) : M unit := λ st,
  let st' := {| self := self st; world := w_close s (world st) |} in
  if env_close E (tick (world st)) then (Ret tt, st')
  else (Raise (OSError "close"), st').

(** [Thread(target=..., daemon=True)] *)
Definition thread_new : M thread := λ st,
  (Ret (next_thread (world st)), {| self := self st; world := w_new_thread (world st) |}).

(** [t.start()] *)
Definition thread_start (th : thread) : M unit := λ st,
  if env_thread_start E (tick (world st))
  then (Ret tt, {| self := self st; world := w_thread_started th (world st) |})
  else (Raise RuntimeError, {| self := self st; world := w_step (world st) |}).

(** [t.is_alive()]: a started thread may have finished by the time it is asked *)
Definition thread_is_alive (th : thread) : M bool := λ st,
  if bool_decide (th ∈ alive (world st)) then
    if env_running E (tick (world st))
    then (Ret true, {| self := self st; world := w_step (world st) |})
    else (Ret false, {| self := self st; world := w_thread_ended th (world st) |})
  else (Ret false, st).

(** [t.join(timeout=3)] *)
Definition thread_join (th : thread) : M unit := λ st,
  if env_join E (tick (world st))
  then (Ret tt, {| self := self st; world := w_thread_ended th (world st) |})
  else (Ret tt, {| self := self st; world := w_step (world st) |}).

(** [subprocess.Popen(cmd, ...)] *)
Definition popen (cmd : list string) : M proc := λ st,
  if env_popen E (tick (world st))
  then (Ret (next_proc (world st)), {| self := self st; world := w_new_proc cmd (world st) |})
  else (Raise (OSError "Popen"), {| self := self st; world := w_command cmd (world st) |}).

(** [p.terminate()]: the signal is sent to a child of this interpreter *)
Definition proc_terminate (p : proc) : M unit := on_world w_step.

(** [p.wait(timeout=3)] *)
Definition proc_wait (p : proc) : M unit := λ st,
  if env_wait E (tick (world st))
  then (Ret tt, {| self := self st; world := w_exit p (world st) |})
  else (Raise TimeoutExpired, {| self := self st; world := w_step (world st) |}).

(** [p.kill()] *)
Definition proc_kill (p : proc) : M unit := on_world (w_exit p).

(** *** The methods of [Scrcpy] *)

Definition find_available_port (start_port : Z) (max_attempts : nat) : M Z := λ st,
  (find_available_port_in (env_bindable E (tick (world st))) start_port max_attempts,
   {| self := self st; world := w_step (world st) |}).

Definition self_cmd (command : list string) : M (list string) :=
  let* path := get adb_path in
  let* dev := get device_id in
  ret (adb_cmd path dev command).

Definition cleanup_adb_forward : M unit :=
  let* lp := get local_port in
  if port_truthy lp then
    try_finally
      (try_except
         (let* cmd := self_cmd ["forward"; "--remove"; "tcp:" +:+ fmt_port lp] in
          subprocess_run cmd false >>
          print ("Cleaned up ADB forward for port " +:+ fmt_port lp))
         any_Exception
         (λ e, print ("Error cleaning up ADB forward: " +:+ str_exn e)))
      (modify (set_local_port None))
  else ret tt.

Definition push_server_to_device : M bool :=
  print "Pushing scrcpy-server.jar to device..." >>
  let* cmd := self_cmd ["push"; SCRCPY_SERVER_PATH; DEVICE_SERVER_PATH] in
  let* result := subprocess_run cmd false in
  let '(rc, _, err) := result in
  if negb (rc =? 0) then print ("Error pushing server: " +:+ err) >> ret false
  else ret true.

Definition setup_adb_forward : M unit :=
  cleanup_adb_forward >>
  let* p := find_available_port BASE_PORT 100 in
  modify (set_local_port (Some p)) >>
  let* lp := get local_port in
  print ("Setting up ADB forward: tcp:" +:+ fmt_port lp +:+ " -> localabstract:scrcpy") >>
  let* cmd := self_cmd ["forward"; "tcp:" +:+ fmt_port lp; "localabstract:scrcpy"] in
  subprocess_run cmd true >>
  ret tt.

(** The launcher worker [start_server], up to the point where it has spawned
    the remote shell.  It runs on [android_thread] during the one-second
    pause of [scrcpy_start]; an exception ends the worker and is not seen by
    the caller.  The loop that then drains the child's diagnostics reads no
    attribute but [stop] and is left to the environment. *)
Definition start_server (th : thread) : M unit :=
  try_except
    (print "Starting scrcpy server in background..." >>
     let* rate := get video_bit_rate in
     match rate with
     | None => raise AttributeError
     | Some r =>
         let* cmd := self_cmd
           ["shell";
            "CLASSPATH=" +:+ DEVICE_SERVER_PATH +:+
            " app_process / com.genymobile.scrcpy.Server 3.1 tunnel_forward=true log_level=VERBOSE video_bit_rate="
            +:+ r] in
         let* p := popen cmd in
         modify (set_android_process (Some p))
     end)
    any_Exception
    (λ _, on_world (w_thread_ended th)).

(** One round of the socket loop of [scrcpy_stop] *)
Definition close_quietly (o : option sock) : M unit :=
  match o with
  | Some s =>
      try_except (sock_shutdown s) is_OSError (λ _, ret tt) >>
      try_except (sock_close s) is_OSError (λ _, ret tt)
  | None => ret tt
  end.

Definition join_warning (thread_name : string) : string :=
  "Warning: " +:+ thread_name +:+ " did not stop within timeout".

(** One round of the thread loop of [scrcpy_stop]; the launcher is joined
    by the same statements further down. *)
Definition join_worker (thread_name : string) (o : option thread) : M unit :=
  match o with
  | Some th =>
      let* running := thread_is_alive th in
      if running then
        try_except
          (thread_join th >>
           let* still := thread_is_alive th in
           if still then print (join_warning thread_name) else ret tt)
          any_Exception
          (λ e, print ("Error joining " +:+ thread_name +:+ ": " +:+ str_exn e))
      else ret tt
  | None => ret tt
  end.

Definition terminate_process (o : option proc) : M unit :=
  match o with
  | Some p =>
      try_except
        (proc_terminate p >>
         try_except (proc_wait p) is_TimeoutExpired
           (λ _, print "Force killing Android process" >> proc_kill p))
        any_Exception
        (λ e, print ("Error terminating Android process: " +:+ str_exn e))
  | None => ret tt
  end.

Definition scrcpy_stop : M unit :=
  print "Stopping Scrcpy" >>
  modify (set_stop (Some true)) >>
  let* vs := get video_socket in
  let* as_ := get audio_socket in
  let* cs := get control_socket in
  close_quietly vs >>
  close_quietly as_ >>
  close_quietly cs >>
  let* vt := get video_thread in
  let* at_ := get audio_thread in
  let* ct := get control_thread in
  join_worker "video_thread" vt >>
  join_worker "audio_thread" at_ >>
  join_worker "control_thread" ct >>
  let* p := get android_process in
  terminate_process p >>
  let* lt := get android_thread in
  join_worker "android_thread" lt >>
  try_except cleanup_adb_forward any_Exception
    (λ e, print ("Error cleaning up ADB forward: " +:+ str_exn e)) >>
  print "Scrcpy stopped".

(** Lines 161-184 of [scrcpy_start]: the device check, the push, the
    forward and the launcher.  [false] stands for the two early
    [return False]. *)
Definition start_setup (callback : nat) (bit_rate : string) : M bool :=
  modify (set_video_bit_rate (Some bit_rate)) >>
  modify (set_video_callback (Some callback)) >>
  modify (set_stop (Some false)) >>
  let* cmd := self_cmd ["devices"] in
  let* result := subprocess_run cmd false in
  let '(_, out, _) := result in
  if negb (PyStr.contains "device" out) then
    let* dev := get device_id in
    print ("Device " +:+ fmt_opt dev +:+ " not found or not authorized.") >>
    ret false
  else
    print ("Device check result: " +:+ out) >>
    let* pushed := push_server_to_device in
    if negb pushed then
      print "Failed to push server files to device." >> ret false
    else
      setup_adb_forward >>
      let* th := thread_new in
      modify (set_android_thread (Some th)) >>
      thread_start th >>
      start_server th >>
      ret true.

(** The body of the [try] of [scrcpy_start]: three connections in the order
    video, audio, control, then the three receive workers. *)
Definition open_channels : M unit :=
  let* vs := socket_socket in
  modify (set_video_socket (Some vs)) >>
  let* lp := get local_port in
  sock_connect vs lp >>
  print "Video connection established" >>
  let* as_ := socket_socket in
  modify (set_audio_socket (Some as_)) >>
  let* lp := get local_port in
  sock_connect as_ lp >>
  print "Audio connection established" >>
  let* cs := socket_socket in
  modify (set_control_socket (Some cs)) >>
  let* lp := get local_port in
  sock_connect cs lp >>
  print "Control connection established" >>
  let* vt := thread_new in
  modify (set_video_thread (Some vt)) >>
  let* at_ := thread_new in
  modify (set_audio_thread (Some at_)) >>
  let* ct := thread_new in
  modify (set_control_thread (Some ct)) >>
  thread_start vt >>
  thread_start at_ >>
  thread_start ct >>
  print "Background tasks started".

Definition scrcpy_start (callback : nat) (bit_rate : string) : M bool :=
  let* ready := start_setup callback bit_rate in
  if ready then
    try_except
      (open_channels >> ret true)
      any_Exception
      (λ e, print ("Error establishing connections: " +:+ str_exn e) >>
            scrcpy_stop >>
            ret false)
  else ret false.

End Methods.

End Scrcpy.

(** ** app.py: the device manager *)

Module DeviceManager.

(** The dict stored per device id.  [scrcpy] holds the session object. *)
Record entry := {
  id : string;
  state : string;
  is_mirroring : bool;
  scrcpy : option Scrcpy.t
}.

Record t := {
  devices : gmap string entry;
  adb_manager : ADBManager.t
}.

Definition init (path : string) : t :=
  {| devices := ∅; adb_manager := ADBManager.init path |}.

Definition set_devices (d : gmap string entry) (self : t) : t :=
  {| devices := d; adb_manager := adb_manager self |}.

Definition add_device (self : t) (device_id state : string) : bool * t :=
  match devices self !! device_id with
  | None =>
      (true,
       set_devices
         (<[device_id := {| id := device_id; state := state;
                            is_mirroring := false; scrcpy := None |}]> (devices self))
         self)
  | Some _ => (false, self)
  end.

Section Methods.

Variable E : Env.

(** the module-level [video_bit_rate] *)
Variable video_bit_rate : string.

Definition remove_device (self : t) (w : World) (device_id : string)
    : res unit * (t * World) :=
  match devices self !! device_id with
  | Some e =>
      match scrcpy e with
      | Some session =>
          match Scrcpy.scrcpy_stop E {| Scrcpy.self := session; Scrcpy.world := w |} with
          | (Ret _, st') =>
              (Ret tt, (set_devices (delete device_id (devices self)) self, Scrcpy.world st'))
          | (Raise x, st') => (Raise x, (self, Scrcpy.world st'))
          end
      | None => (Ret tt, (set_devices (delete device_id (devices self)) self, w))
      end
  | None => (Ret tt, (self, w))
  end.

Definition start_mirror (self : t) (w : World) (device_id : string) (callback : nat)
    : res bool * (t * World) :=
  match devices self !! device_id with
  | Some e =>
      if negb (is_mirroring e) then
        let scpy := Scrcpy.set_device_id (Some device_id)
                      (Scrcpy.init (ADBManager.adb_path (adb_manager self))) in
        match Scrcpy.scrcpy_start E callback video_bit_rate
                {| Scrcpy.self := scpy; Scrcpy.world := w |} with
        | (Ret true, st') =>
            (Ret true,
             (set_devices
                (<[device_id := {| id := id e; state := state e; is_mirroring := true;
                                   scrcpy := Some (Scrcpy.self st') |}]> (devices self))
                self,
              Scrcpy.world st'))
        | (Ret false, st') =>
            (Ret false,
             (self, w_print ("Failed to start scrcpy for device " +:+ device_id)
                            (Scrcpy.world st')))
        | (Raise x, st') => (Raise x, (self, Scrcpy.world st'))
        end
      else (Ret false, (self, w))
  | None => (Ret false, (self, w))
  end.

Definition stop_mirror (self : t) (w : World) (device_id : string)
    : res bool * (t * World) :=
  match devices self !! device_id with
  | Some e =>
      if is_mirroring e then
        match scrcpy e with
        | Some session =>
            match Scrcpy.scrcpy_stop E {| Scrcpy.self := session; Scrcpy.world := w |} with
            | (Ret _, st') =>
                (Ret true,
                 (set_devices
                    (<[device_id := {| id := id e; state := state e; is_mirroring := false;
                                       scrcpy := None |}]> (devices self))
                    self,
                  Scrcpy.world st'))
            | (Raise x, st') => (Raise x, (self, Scrcpy.world st'))
            end
        | None => (Raise AttributeError, (self, w))
        end
      else (Ret false, (self, w))
  | None => (Ret false, (self, w))
  end.

(** A caller's request, and a sequence of requests run one after the other
    (a request that raises leaves the registry as it was at the raise). *)
Inductive op :=
| AddDevice (device_id state : string)
| RemoveDevice (device_id : string)
| StartMirror (device_id : string) (callback : nat)
| StopMirror (device_id : string).

Definition step (s : t * World) (o : op) : t * World :=
  match o with
  | AddDevice d stt => ((add_device (fst s) d stt).2, snd s)
  | RemoveDevice d => (remove_device (fst s) (snd s) d).2
  | StartMirror d cb => (start_mirror (fst s) (snd s) d cb).2
  | StopMirror d => (stop_mirror (fst s) (snd s) d).2
  end.

Definition run (ops : list op) (s : t * World) : t * World :=
  foldl step s ops.

End Methods.

(** The registry invariant: an entry holds a session exactly when it is
    marked as mirroring. *)
Definition entry_ok (e : entry) : Prop :=
  is_Some (scrcpy e) ↔ is_mirroring e = true.

Definition registry_ok (self : t) : Prop :=
  ∀ d e, devices self !! d = Some e → entry_ok e.

End DeviceManager.

(** ** Sample environments and inputs *)

Module Sample.

(** An environment in which every request succeeds, the device listing
    shows one device, and the ports 6666, 6667 and 6668 are occupied. *)
Definition listing : string :=
  "List of devices attached" +:+ String PyStr.LF
    ("ABC123" +:+ String PyStr.TAB ("device" +:+ String PyStr.LF (String PyStr.LF ""))).

Definition env_ok : Env :=
  {| env_run := λ _ _, Completed 0 listing "";
     env_bindable := λ _ p, 6669 <=? p;
     env_socket := λ _, true;
     env_connect := λ _, true;
     env_shutdown := λ _, true;
     env_close := λ _, true;
     env_thread_start := λ _, true;
     env_running := λ _, true;
     env_join := λ _, true;
     env_popen := λ _, true;
     env_wait := λ _, true |}.

Definition fresh : Scrcpy.St :=
  {| Scrcpy.self := Scrcpy.set_device_id (Some "ABC123") (Scrcpy.init "adb");
     Scrcpy.world := World_init |}.

(** The same, except that every connection to the forwarded port is refused. *)
Definition env_refused : Env :=
  {| env_run := env_run env_ok;
     env_bindable := env_bindable env_ok;
     env_socket := λ _, true;
     env_connect := λ _, false;
     env_shutdown := λ _, false;
     env_close := λ _, true;
     env_thread_start := λ _, true;
     env_running := λ _, true;
     env_join := λ _, true;
     env_popen := λ _, true;
     env_wait := λ _, true |}.

(** The same as [env_ok], except that no worker finishes within a join and
    the child never exits within the grace period. *)
Definition env_stuck : Env :=
  {| env_run := env_run env_ok;
     env_bindable := env_bindable env_ok;
     env_socket := λ _, true;
     env_connect := λ _, true;
     env_shutdown := λ _, true;
     env_close := λ _, true;
     env_thread_start := λ _, true;
     env_running := λ _, true;
     env_join := λ _, false;
     env_popen := λ _, true;
     env_wait := λ _, false |}.

(** The listing of a bridge that sees no device: the header and a blank line. *)
Definition listing_empty : string :=
  "List of devices attached" +:+ String PyStr.LF (String PyStr.LF "").

(** A line made of two no-break spaces (U+00A0) around a TAB, and a listing
    that shows a USB device, a network device and that line. *)
Definition no_break_spaces : string :=
  String "194" (String "160" (String PyStr.TAB (String "194" (String "160" "")))).

Definition listing_spaces : string :=
  "List of devices attached" +:+ String PyStr.LF
    ("ABC123" +:+ String PyStr.TAB ("device" +:+ String PyStr.LF
      ("10.0.0.2:5555" +:+ String PyStr.TAB ("offline" +:+ String PyStr.LF
        (no_break_spaces +:+ String PyStr.LF ""))))).

(** A bridge that does not know the device: the listing is empty and every
    other command fails. *)
Definition env_absent : Env :=
  {| env_run := λ t _, match t with
                       | O => Completed 0 listing_empty ""
                       | _ => Completed 1 "" "adb: device 'ABC123' not found"
                       end;
     env_bindable := λ _ _, true;
     env_socket := λ _, true;
     env_connect := λ _, true;
     env_shutdown := λ _, true;
     env_close := λ _, true;
     env_thread_start := λ _, true;
     env_running := λ _, true;
     env_join := λ _, true;
     env_popen := λ _, true;
     env_wait := λ _, true |}.

(** A bridge that lists the device and takes the push, but whose forward
    command exits with status 1. *)
Definition env_forward_fails : Env :=
  {| env_run := λ t _, match t with
                       | O => Completed 0 listing ""
                       | S O => Completed 0 "1 file pushed" ""
                       | _ => Completed 1 "" "adb: error: cannot bind listener"
                       end;
     env_bindable := λ _ _, true;
     env_socket := λ _, true;
     env_connect := λ _, true;
     env_shutdown := λ _, true;
     env_close := λ _, true;
     env_thread_start := λ _, true;
     env_running := λ _, true;
     env_join := λ _, true;
     env_popen := λ _, true;
     env_wait := λ _, true |}.

(** A bridge with one USB device whose address is 192.168.1.42: it restarts
    in TCP mode, and the connection that follows is refused. *)
Definition tool_tcpip_refused : list string → run_result :=
  λ cmd, match cmd with
         | [_; "devices"] => Completed 0 listing ""
         | [_; "shell"; "ip"; "route"] =>
             Completed 0 "default via 192.168.1.1 dev wlan0 src 192.168.1.42 metric 600" ""
         | [_; "tcpip"; _] => Completed 0 "restarting in TCP mode port: 5555" ""
         | _ => Completed 0 "failed to connect to '192.168.1.42:5555': Connection refused" ""
         end.

(** A routing table with two [src] tokens. *)
Definition tool_two_routes : list string → run_result :=
  λ _, Completed 0
         "10.0.0.0/8 dev rmnet0 src 10.20.30.40 192.168.1.0/24 dev wlan0 src 192.168.1.42" "".

(** A bridge on which every command succeeds and prints "connected". *)
Definition tool_connected : list string → run_result :=
  λ _, Completed 0 "connected to 10.0.0.2:5555" "".

(** An environment in which no port at all can be bound. *)
Definition env_no_port : Env :=
  {| env_run := env_run env_ok;
     env_bindable := λ _ _, false;
     env_socket := λ _, true;
     env_connect := λ _, true;
     env_shutdown := λ _, true;
     env_close := λ _, true;
     env_thread_start := λ _, true;
     env_running := λ _, true;
     env_join := λ _, true;
     env_popen := λ _, true;
     env_wait := λ _, true |}.

(** A bridge that cannot reach any daemon: nothing on stdout. *)
Definition env_silent : Env :=
  {| env_run := λ _ _, Completed 1 "" "adb: no devices/emulators found";
     env_bindable := λ _ _, true;
     env_socket := λ _, true;
     env_connect := λ _, true;
     env_shutdown := λ _, true;
     env_close := λ _, true;
     env_thread_start := λ _, true;
     env_running := λ _, true;
     env_join := λ _, true;
     env_popen := λ _, true;
     env_wait := λ _, true |}.

(** The state a run of method [m] ends in. *)
Definition after {A} (m : Scrcpy.M A) (st : Scrcpy.St) : Scrcpy.St := (m st).2.

(** A session started under [env_stuck], then stopped once and twice. *)
Definition running : Scrcpy.St := after (Scrcpy.scrcpy_start env_stuck 0 "1024000") fresh.
Definition stopped_once : Scrcpy.St := after (Scrcpy.scrcpy_stop env_stuck) running.
Definition stopped_twice : Scrcpy.St := after (Scrcpy.scrcpy_stop env_stuck) stopped_once.

(** A session that holds port 6669. *)
Definition with_port : Scrcpy.St :=
  {| Scrcpy.self := Scrcpy.set_local_port (Some 6669) (Scrcpy.self fresh);
     Scrcpy.world := World_init |}.

(** A registry that knows one idle device; the session object and the entry
    that [start_mirror] records for it under [env_ok], and the registry and
    world that call leaves. *)
Definition entry_idle : DeviceManager.entry :=
  {| DeviceManager.id := "ABC123"; DeviceManager.state := "device";
     DeviceManager.is_mirroring := false; DeviceManager.scrcpy := None |}.

Definition registry : DeviceManager.t :=
  (DeviceManager.add_device (DeviceManager.init "adb") "ABC123" "device").2.

Definition session : Scrcpy.t :=
  Scrcpy.self (after (Scrcpy.scrcpy_start env_ok 0 "1024000") fresh).

Definition entry_mirroring : DeviceManager.entry :=
  {| DeviceManager.id := "ABC123"; DeviceManager.state := "device";
     DeviceManager.is_mirroring := true; DeviceManager.scrcpy := Some session |}.

Definition mirroring : DeviceManager.t * World :=
  (DeviceManager.start_mirror env_ok "1024000" registry World_init "ABC123" 0).2.

End Sample.

(** ** Vocabulary of the statements *)

Module Spec.

(** The tool output, lowercased, contains "connected" or "already connected". *)
Definition says_connected (output : string) : bool :=
  PyStr.contains "connected" (PyStr.lower output)
  || PyStr.contains "already connected" (PyStr.lower output).

(** A tool that exits with status 1 and reports on its error stream. *)
Definition failing_tool (err : string) : list string → run_result :=
  λ _, Completed 1 "" err.

(** Only whitespace, as [str.strip] sees it: every character of the text is
    one that [str.isspace] accepts. *)
Definition blank (s : string) : bool := forallb PyStr.isspace (PyStr.chars s).

(** ["\n".join(lines)] *)
Fixpoint join_lines (lines : list string) : string :=
  match lines with
  | [] => EmptyString
  | [l] => l
  | l :: rest => l +:+ String PyStr.LF (join_lines rest)
  end.

(** A line [id<TAB>state] of the device listing. *)
Definition device_line (d : string * string) : string :=
  d.1 +:+ String PyStr.TAB d.2.

(** Such a line is well formed when neither field contains a TAB or a line
    break and the line is not made of whitespace only. *)
Definition well_formed (d : string * string) : bool :=
  negb (PyStr.has_char PyStr.TAB d.1) && negb (PyStr.has_char PyStr.LF d.1)
  && negb (PyStr.has_char PyStr.TAB d.2) && negb (PyStr.has_char PyStr.LF d.2)
  && negb (blank (device_line d)).

Definition blank_line (l : string) : bool :=
  blank l && negb (PyStr.has_char PyStr.LF l).

(** The entry [get_devices] is expected to build for a line. *)
Definition device_of (d : string * string) : ADBManager.device :=
  {| ADBManager.id := d.1; ADBManager.state := d.2;
     ADBManager.is_tcp := PyStr.has_char ":" d.1 |}.

(** A non-empty run of decimal digits. *)
Definition number (l : list string) : bool :=
  match l with
  | [] => false
  | _ :: _ => forallb PyStr.isdecimal l
  end.

(** Four numbers separated by dots: what [\d+\.\d+\.\d+\.\d+] matches. *)
Definition dotted_quad (q : list string) : Prop :=
  ∃ a b c d,
    number a = true ∧ number b = true ∧ number c = true ∧ number d = true ∧
    q = a ++ ["."] ++ b ++ ["."] ++ c ++ ["."] ++ d.

(** The characters of the word in front of the address. *)
Definition src : list string := ["s"; "r"; "c"; " "].

(** The text holds the token [src <ip>] with the dotted quad [q], after
    the characters [before] and in front of the characters [after]. *)
Definition src_token (text before q after : list string) : Prop :=
  dotted_quad q ∧ text = before ++ src ++ q ++ after.

Definition starts_nondigit (r : list string) : Prop :=
  match r with
  | ch :: _ => PyStr.isdecimal ch = false
  | [] => True
  end.

(** The first such token of the text, its last number taken as far as the
    digits go. *)
Definition first_src_token (text before q after : list string) : Prop :=
  src_token text before q after
  ∧ starts_nondigit after
  ∧ ∀ b1 q1 a1, src_token text b1 q1 a1 → (length before ≤ length b1)%nat.

(** What one atom of a pattern may consume. *)
Definition atom_ok (a : Re.atom) (piece : list string) : Prop :=
  match a with
  | Re.Chr c => piece = [String c EmptyString]
  | Re.Digits => number piece = true
  end.

Definition route_dump : string :=
  "default via 192.168.1.1 dev wlan0 src 192.168.1.42 metric 600".

(** A stretch of a run that creates nothing and runs no command: sockets
    may get closed, children may exit, threads may finish, lines may be
    printed. *)
Definition quiet (w w' : World) : Prop :=
  commands w' = commands w
  ∧ next_sock w' = next_sock w
  ∧ next_proc w' = next_proc w
  ∧ next_thread w' = next_thread w
  ∧ closed w ⊆ closed w'
  ∧ exited w ⊆ exited w'
  ∧ alive w' ⊆ alive w
  ∧ stdout w `suffix_of` stdout w'.

(** The handles a session object refers to. *)
Definition sockets_of (s : Scrcpy.t) : list sock :=
  option_list (Scrcpy.video_socket s) ++ option_list (Scrcpy.audio_socket s)
  ++ option_list (Scrcpy.control_socket s).

Definition workers_of (s : Scrcpy.t) : list (string * thread) :=
  match Scrcpy.video_thread s with Some t => [("video_thread", t)] | None => [] end
  ++ match Scrcpy.audio_thread s with Some t => [("audio_thread", t)] | None => [] end
  ++ match Scrcpy.control_thread s with Some t => [("control_thread", t)] | None => [] end
  ++ match Scrcpy.android_thread s with Some t => [("android_thread", t)] | None => [] end.

(** The argument vectors of the device check, the push and the forward. *)
Definition devices_cmd (s : Scrcpy.t) : list string :=
  adb_cmd (Scrcpy.adb_path s) (Scrcpy.device_id s) ["devices"].

Definition push_cmd (s : Scrcpy.t) : list string :=
  adb_cmd (Scrcpy.adb_path s) (Scrcpy.device_id s)
    ["push"; Scrcpy.SCRCPY_SERVER_PATH; Scrcpy.DEVICE_SERVER_PATH].


(** The argument vector that removes the forward of port [p]. *)
Definition remove_forward_cmd (s : Scrcpy.t) (p : Z) : list string :=
  adb_cmd (Scrcpy.adb_path s) (Scrcpy.device_id s)
    ["forward"; "--remove"; "tcp:" +:+ pretty p].

(** The session object [scrcpy_stop] leaves behind: the stop flag is set and
    a truthy [local_port] is cleared; the handles stay where they were. *)
Definition released (s : Scrcpy.t) : Scrcpy.t :=
  if Scrcpy.port_truthy (Scrcpy.local_port s) then Scrcpy.set_local_port None s else s.

Definition stopped (s : Scrcpy.t) : Scrcpy.t :=
  released (Scrcpy.set_stop (Some true) s).

(** The commands run by a stop: the removal of the forward when a port was
    held, nothing otherwise. *)
Definition stop_commands (s : Scrcpy.t) : list (list string) :=
  match Scrcpy.local_port s with
  | Some p => if Scrcpy.port_truthy (Some p) then [remove_forward_cmd s p] else []
  | None => []
  end.

(** After a stop: the flag is set, no socket of the session is live, its
    child is not live, and no port is held. *)
Definition torn_down (s : Scrcpy.t) (w : World) : Prop :=
  Scrcpy.stop s = Some true
  ∧ (∀ x, x ∈ sockets_of s → ¬ sock_live w x)
  ∧ (∀ p, Scrcpy.android_process s = Some p → ¬ proc_live w p)
  ∧ Scrcpy.local_port s = None.

(** No worker of the session is running any more. *)
Definition workers_released (s : Scrcpy.t) (w : World) : Prop :=
  ∀ name th, (name, th) ∈ workers_of s → th ∉ alive w.

(** A worker of the session that is still running has been reported by the
    warning of its join. *)
Definition workers_reported (s : Scrcpy.t) (w : World) : Prop :=
  ∀ name th, (name, th) ∈ workers_of s → th ∈ alive w →
    Scrcpy.join_warning name ∈ stdout w.

(** [Idle] with every resource released: sockets, workers, child, forward
    and port. *)
Definition idle (s : Scrcpy.t) (w : World) : Prop :=
  torn_down s w ∧ workers_released s w.


End Spec.

(** * Properties *)

(** ** Port probing *)

Section Probe.

Variable bindable : Z → bool.
Variable start_port : Z.
Variable max_attempts : nat.

Lemma try_bind_free port :
  0 ≤ port ≤ 65535 → bindable port = true → Scrcpy.try_bind bindable port = Ret tt.
Proof.
  intros Hr Hb. unfold Scrcpy.try_bind.
  replace (port <? 0) with false by (symmetry; apply Z.ltb_ge; lia).
  replace (65535 <? port) with false by (symmetry; apply Z.ltb_ge; lia).
  simpl. now rewrite Hb.
Qed.

Lemma try_bind_busy port :
  0 ≤ port ≤ 65535 → bindable port = false →
  Scrcpy.try_bind bindable port = Raise (OSError "Address already in use").
Proof.
  intros Hr Hb. unfold Scrcpy.try_bind.
  replace (port <? 0) with false by (symmetry; apply Z.ltb_ge; lia).
  replace (65535 <? port) with false by (symmetry; apply Z.ltb_ge; lia).
  simpl. now rewrite Hb.
Qed.

(** The scan skips occupied ports and stops at the first free one. *)
Lemma probe_first_free (B : nat) : ∀ i n : nat,
  0 ≤ start_port → start_port + Z.of_nat (i + n) ≤ 65536 →
  (B < n)%nat →
  (∀ j : nat, (j < B)%nat → bindable (start_port + Z.of_nat (i + j)) = false) →
  bindable (start_port + Z.of_nat (i + B)) = true →
  Scrcpy.probe bindable start_port max_attempts i n = Ret (start_port + Z.of_nat (i + B)).
Proof.
  induction B as [|B IH]; intros i n H0 Hhi Hlt Hocc Hfree.
  - destruct n as [|n]; [lia|]. simpl.
    replace (i + 0)%nat with i in * by lia.
    rewrite try_bind_free; [reflexivity | lia | assumption].
  - destruct n as [|n]; [lia|]. simpl.
    rewrite try_bind_busy; [simpl | lia | ].
    + replace (i + S B)%nat with (S i + B)%nat by lia.
      apply IH; try lia.
      * intros j Hj. replace (S i + j)%nat with (i + S j)%nat by lia.
        apply Hocc. lia.
      * replace (S i + B)%nat with (i + S B)%nat by lia. assumption.
    + specialize (Hocc 0%nat). replace (i + 0)%nat with i in Hocc by lia.
      apply Hocc. lia.
Qed.

(** With every probed port occupied the scan runs out of attempts. *)
Lemma probe_all_busy : ∀ n i : nat,
  0 ≤ start_port → start_port + Z.of_nat (i + n) ≤ 65536 →
  (∀ j : nat, (j < n)%nat → bindable (start_port + Z.of_nat (i + j)) = false) →
  Scrcpy.probe bindable start_port max_attempts i n = Raise (PortsExhausted max_attempts).
Proof.
  induction n as [|n IH]; intros i H0 Hhi Hocc; [reflexivity|].
  simpl. rewrite try_bind_busy; [simpl | lia | ].
  - apply IH; try lia.
    intros j Hj. replace (S i + j)%nat with (i + S j)%nat by lia. apply Hocc. lia.
  - specialize (Hocc 0%nat). replace (i + 0)%nat with i in Hocc by lia. apply Hocc. lia.
Qed.

End Probe.

(** C5. [find_available_port] scans upwards from the base: when the first
    [B] ports from the base are occupied and port [base + B] can be bound,
    with [B] below the attempt ceiling, it returns [base + B]; when none of
    the [max_attempts] ports from the base can be bound it raises the
    exhaustion exception.  The ports probed are TCP ports (at most 65535),
    as they are for the base 6666 and the ceiling 100 the session uses. *)
Theorem find_available_port_first_free
    (E : Env) (st : Scrcpy.St) (start_port : Z) (max_attempts : nat) :
  0 ≤ start_port →
  start_port + Z.of_nat max_attempts ≤ 65536 →
  let bindable := env_bindable E (tick (Scrcpy.world st)) in
  (∀ B : nat,
      (B < max_attempts)%nat →
      (∀ j : nat, (j < B)%nat → bindable (start_port + Z.of_nat j) = false) →
      bindable (start_port + Z.of_nat B) = true →
      (Scrcpy.find_available_port E start_port max_attempts st).1
        = Ret (start_port + Z.of_nat B))
  ∧ ((∀ j : nat, (j < max_attempts)%nat → bindable (start_port + Z.of_nat j) = false) →
      (Scrcpy.find_available_port E start_port max_attempts st).1
        = Raise (PortsExhausted max_attempts)).
Proof.
  intros H0 Hhi bindable. split.
  - intros B HB Hocc Hfree. unfold Scrcpy.find_available_port. simpl.
    unfold Scrcpy.find_available_port_in.
    apply (probe_first_free bindable start_port max_attempts B 0 max_attempts);
      simpl; auto.
  - intros Hocc. unfold Scrcpy.find_available_port. simpl.
    unfold Scrcpy.find_available_port_in.
    apply (probe_all_busy bindable start_port max_attempts max_attempts 0);
      simpl; auto.
Qed.

Lemma find_available_port_first_free_witness :
  (Scrcpy.find_available_port Sample.env_ok 6666 100 Sample.fresh).1 = Ret 6669.
Proof.
  destruct (find_available_port_first_free Sample.env_ok Sample.fresh 6666 100
              ltac:(lia) ltac:(simpl; lia)) as [H _].
  apply (H 3%nat).
  - lia.
  - intros j Hj. simpl. apply Z.leb_gt. lia.
  - reflexivity.
Defined.

(** ** The device bridge *)

(** C6, as stated, fails: a tool that exits non-zero and prints "connected"
    on its error stream is reported as a failure although the output
    contains the word. *)
Lemma connect_to_device_not_iff_output :
  ¬ ((ADBManager.connect_to_device (Spec.failing_tool "connected to 10.0.0.2:5555")
        (ADBManager.init "adb") "10.0.0.2" 5555).1.1 = true
     ↔ Spec.says_connected
         (ADBManager.connect_to_device (Spec.failing_tool "connected to 10.0.0.2:5555")
            (ADBManager.init "adb") "10.0.0.2" 5555).1.2 = true).
Proof.
  intros [_ H]. vm_compute in H. discriminate (H eq_refl).
Qed.

(** C6, amended. [connect_to_device] runs the tool on [connect ip:port] and
    returns success if and only if the tool exited with status zero and its
    standard output, lowercased, contains "connected" or "already
    connected".  Whatever the verdict, the text handed back is the tool's,
    unchanged: its standard output after an exit with status zero, its error
    stream after any other exit, and the text of the exception when the tool
    could not be run.  On success [ip:port] is recorded as the current
    device and the TCP flag is set; on failure the manager is unchanged. *)
Theorem connect_to_device_success_iff run self ip port :
  let address := ip +:+ ":" +:+ pretty port in
  let tool := run [ADBManager.adb_path self; "connect"; address] in
  let result := ADBManager.connect_to_device run self ip port in
  (result.1.1 = true ↔
     ∃ stdout stderr,
       tool = Completed 0 stdout stderr ∧ Spec.says_connected stdout = true)
  ∧ (∀ stdout stderr, tool = Completed 0 stdout stderr → result.1.2 = stdout)
  ∧ (∀ rc stdout stderr, tool = Completed rc stdout stderr → rc ≠ 0 →
       result.1.1 = false ∧ result.1.2 = stderr)
  ∧ (∀ msg, tool = RunError msg → result.1.1 = false ∧ result.1.2 = msg)
  ∧ (result.1.1 = true →
       ADBManager.current_device result.2 = Some address
       ∧ ADBManager.is_tcp_mode result.2 = true
       ∧ ADBManager.adb_path result.2 = ADBManager.adb_path self)
  ∧ (result.1.1 = false → result.2 = self).
Proof.
  intros address tool result. subst result.
  unfold ADBManager.connect_to_device, ADBManager._run_adb_command, Spec.says_connected.
  change (adb_cmd (ADBManager.adb_path self) None ["connect"; ip +:+ ":" +:+ pretty port])
    with [ADBManager.adb_path self; "connect"; address].
  fold tool. destruct tool as [rc out err|msg].
  - destruct (Z.eqb_spec rc 0) as [->|Hrc].
    + cbn [andb].
      destruct (PyStr.contains "connected" (PyStr.lower out)
                || PyStr.contains "already connected" (PyStr.lower out)) eqn:Hc;
        cbn [fst snd].
      * split; [split; [intros _; exists out, err; split; [reflexivity | exact Hc] | reflexivity]|].
        split; [intros ? ? [= <- _]; reflexivity|].
        split; [intros ? ? ? [= <- _ _] Hne; now destruct Hne|].
        split; [discriminate|].
        split; [intros _; repeat split | discriminate].
      * split; [split; [discriminate | intros (o & e & [= <- _] & Ho); congruence]|].
        split; [intros ? ? [= <- _]; reflexivity|].
        split; [intros ? ? ? [= <- _ _] Hne; now destruct Hne|].
        split; [discriminate|].
        split; [discriminate | reflexivity].
    + cbn [andb fst snd].
      split; [split; [discriminate | intros (o & e & [= -> _ _] & _); now destruct Hrc]|].
      split; [intros ? ? [= -> _ _]; now destruct Hrc|].
      split; [intros ? ? ? [= _ _ <-] _; split; reflexivity|].
      split; [discriminate|].
      split; [discriminate | reflexivity].
  - cbn [andb fst snd].
    split; [split; [discriminate | intros (o & e & [=] & _)]|].
    split; [discriminate|].
    split; [discriminate|].
    split; [intros ? [= <-]; split; reflexivity|].
    split; [discriminate | reflexivity].
Qed.

(** *** Splitting and stripping *)

Lemma split_field sep a b :
  PyStr.has_char sep a = false →
  PyStr.split sep (a +:+ String sep b) = a :: PyStr.split sep b.
Proof.
  induction a as [|c a IH]; simpl; intros H.
  - now rewrite Ascii.eqb_refl.
  - apply orb_false_iff in H as [Hc Ha].
    rewrite Ascii.eqb_sym, Hc. now rewrite (IH Ha).
Qed.

Lemma split_single sep a :
  PyStr.has_char sep a = false → PyStr.split sep a = [a].
Proof.
  induction a as [|c a IH]; simpl; intros H; [reflexivity|].
  apply orb_false_iff in H as [Hc Ha].
  rewrite Ascii.eqb_sym, Hc. now rewrite (IH Ha).
Qed.

Lemma split_join_lines l ls :
  Forall (λ x, PyStr.has_char PyStr.LF x = false) (l :: ls) →
  PyStr.split PyStr.LF (Spec.join_lines (l :: ls)) = l :: ls.
Proof.
  revert l. induction ls as [|l' ls IH]; intros l H.
  - simpl. apply split_single. now inversion H.
  - inversion H as [|? ? Hl Hrest]; subst.
    change (Spec.join_lines (l :: l' :: ls))
      with (l +:+ String PyStr.LF (Spec.join_lines (l' :: ls))).
    rewrite split_field by assumption. now rewrite IH.
Qed.

(** A character takes at least one byte. *)
Lemma code_point_width s c w : PyStr.code_point s = Some (c, w) → (1 ≤ w)%nat.
Proof.
  unfold PyStr.code_point.
  repeat case_match; try discriminate; intros [= _ <-]; lia.
Qed.

Lemma chars_fuel_truthy fuel : ∀ s,
  Forall (λ ch, PyStr.truthy ch = true) (PyStr.chars_fuel fuel s).
Proof.
  induction fuel as [|fuel IH]; intros s; [constructor|].
  destruct s as [|b s']; [constructor|].
  cbn [PyStr.chars_fuel].
  destruct (PyStr.code_point (String b s')) as [[c w]|] eqn:Hcp.
  - constructor; [|apply IH]. apply code_point_width in Hcp.
    destruct w; [lia | reflexivity].
  - constructor; [reflexivity | apply IH].
Qed.

Lemma lstrip_chars_blank l :
  forallb PyStr.isspace l = true → PyStr.lstrip_chars l = [].
Proof.
  induction l as [|ch l IH]; simpl; [reflexivity|].
  intros H. apply andb_true_iff in H as [Hc Hl]. rewrite Hc. auto.
Qed.

Lemma lstrip_chars_head l :
  Forall (λ ch, PyStr.truthy ch = true) l →
  forallb PyStr.isspace l = false →
  ∃ ch l', PyStr.lstrip_chars l = ch :: l'
           ∧ PyStr.isspace ch = false ∧ PyStr.truthy ch = true.
Proof.
  induction 1 as [|ch l Hch _ IH]; simpl; [discriminate|].
  destruct (PyStr.isspace ch) eqn:Hsp; simpl; [exact IH|].
  intros _. now exists ch, l.
Qed.

Lemma rstrip_chars_head ch l :
  PyStr.isspace ch = false → ∃ r, PyStr.rstrip_chars (ch :: l) = ch :: r.
Proof.
  intros Hsp. simpl. destruct (PyStr.rstrip_chars l) as [|x r].
  - rewrite Hsp. now exists [].
  - now exists (x :: r).
Qed.

(** [line.strip()] is falsy exactly on blank lines. *)
Lemma strip_truthy s : PyStr.truthy (PyStr.strip s) = negb (Spec.blank s).
Proof.
  unfold PyStr.strip, Spec.blank, PyStr.chars.
  pose proof (chars_fuel_truthy (String.length s) s) as Hne.
  destruct (forallb PyStr.isspace _) eqn:Hb.
  - rewrite lstrip_chars_blank by assumption. reflexivity.
  - destruct (lstrip_chars_head _ Hne Hb) as (ch & l' & -> & Hsp & Hch).
    destruct (rstrip_chars_head ch l' Hsp) as [r ->].
    destruct ch; [discriminate | reflexivity].
Qed.

Lemma has_char_app c a b :
  PyStr.has_char c (a +:+ b) = PyStr.has_char c a || PyStr.has_char c b.
Proof.
  induction a as [|d a IH]; simpl; [reflexivity|].
  rewrite IH. now rewrite orb_assoc.
Qed.

Ltac well_formed_fields H :=
  unfold Spec.well_formed in H; simpl in H;
  repeat (apply andb_true_iff in H as [H ?]);
  repeat match goal with
         | h : negb _ = true |- _ => apply negb_true_iff in h
         end.

Lemma parse_line_well_formed d :
  Spec.well_formed d = true →
  ADBManager.parse_line (Spec.device_line d) = Some (Spec.device_of d).
Proof.
  destruct d as [i s]. intros H. well_formed_fields H.
  unfold ADBManager.parse_line. rewrite strip_truthy.
  replace (Spec.blank (Spec.device_line (i, s))) with false by auto.
  unfold Spec.device_line. simpl.
  rewrite split_field by assumption.
  rewrite split_single by assumption. reflexivity.
Qed.

Lemma parse_line_blank l :
  Spec.blank_line l = true → ADBManager.parse_line l = None.
Proof.
  unfold Spec.blank_line. intros H. apply andb_true_iff in H as [H _].
  unfold ADBManager.parse_line. rewrite strip_truthy, H. reflexivity.
Qed.

Lemma omap_parse_well_formed ds :
  Forall (λ d, Spec.well_formed d = true) ds →
  omap ADBManager.parse_line (map Spec.device_line ds) = map Spec.device_of ds.
Proof.
  induction 1 as [|d ds Hd _ IH]; [reflexivity|].
  change (omap ADBManager.parse_line (map Spec.device_line (d :: ds)))
    with (match ADBManager.parse_line (Spec.device_line d) with
          | Some y => y :: omap ADBManager.parse_line (map Spec.device_line ds)
          | None => omap ADBManager.parse_line (map Spec.device_line ds)
          end).
  rewrite parse_line_well_formed by assumption.
  simpl. now f_equal.
Qed.

Lemma omap_parse_blank tail :
  Forall (λ l, Spec.blank_line l = true) tail →
  omap ADBManager.parse_line tail = [].
Proof.
  induction 1 as [|l tail Hl _ IH]; [reflexivity|].
  change (omap ADBManager.parse_line (l :: tail))
    with (match ADBManager.parse_line l with
          | Some y => y :: omap ADBManager.parse_line tail
          | None => omap ADBManager.parse_line tail
          end).
  now rewrite parse_line_blank.
Qed.

Lemma well_formed_no_break d :
  Spec.well_formed d = true → PyStr.has_char PyStr.LF (Spec.device_line d) = false.
Proof.
  destruct d as [i s]. intros H. well_formed_fields H.
  unfold Spec.device_line. rewrite has_char_app. simpl.
  replace (PyStr.has_char PyStr.LF i) with false by auto.
  replace (PyStr.has_char PyStr.LF s) with false by auto.
  reflexivity.
Qed.

(** C8. When the tool succeeds and prints a header line, then [N]
    well-formed [id<TAB>state] lines, then any number of blank lines,
    [get_devices] returns exactly the [N] entries of those lines, in order,
    each with the line's id and state and with [is_tcp] telling whether the
    id contains a colon.  A line is blank when all its characters are
    whitespace for [str.strip], the no-break space and its like included.
    When the tool exits non-zero or cannot be run the result is the empty
    list.  [get_devices] is a total function: it has no way to raise. *)
Theorem get_devices_listing run self :
  (∀ header ds tail err,
      PyStr.has_char PyStr.LF header = false →
      Forall (λ d, Spec.well_formed d = true) ds →
      Forall (λ l, Spec.blank_line l = true) tail →
      run (adb_cmd (ADBManager.adb_path self) None ["devices"])
        = Completed 0 (Spec.join_lines (header :: map Spec.device_line ds ++ tail)) err →
      ADBManager.get_devices run self = map Spec.device_of ds
      ∧ length (ADBManager.get_devices run self) = length ds)
  ∧ (∀ rc out err,
      run (adb_cmd (ADBManager.adb_path self) None ["devices"]) = Completed rc out err →
      rc ≠ 0 → ADBManager.get_devices run self = [])
  ∧ (∀ msg,
      run (adb_cmd (ADBManager.adb_path self) None ["devices"]) = RunError msg →
      ADBManager.get_devices run self = []).
Proof.
  split; [|split].
  - intros header ds tail err Hh Hds Htail Hrun.
    assert (ADBManager.get_devices run self = map Spec.device_of ds) as Heq.
    { unfold ADBManager.get_devices, ADBManager._run_adb_command.
      rewrite Hrun. change (0 =? 0) with true. cbv beta iota. simpl negb. cbv iota.
      rewrite split_join_lines.
      - simpl List.skipn. rewrite drop_0, omap_app.
        rewrite omap_parse_well_formed, omap_parse_blank by assumption.
        apply app_nil_r.
      - constructor; [assumption|]. apply Forall_app. split.
        + apply Forall_map. eapply Forall_impl; [exact Hds|].
          intros d Hd. now apply well_formed_no_break.
        + eapply Forall_impl; [exact Htail|].
          intros l Hl. unfold Spec.blank_line in Hl.
          apply andb_true_iff in Hl as [_ Hl]. now apply negb_true_iff in Hl. }
    split; [exact Heq|]. rewrite Heq. apply length_map.
  - intros rc out err Hrun Hrc.
    unfold ADBManager.get_devices, ADBManager._run_adb_command. rewrite Hrun.
    replace (rc =? 0) with false by (symmetry; now apply Z.eqb_neq).
    reflexivity.
  - intros msg Hrun.
    unfold ADBManager.get_devices, ADBManager._run_adb_command. now rewrite Hrun.
Qed.

Lemma get_devices_listing_witness :
  ADBManager.get_devices (λ _, Completed 0 Sample.listing_spaces "") (ADBManager.init "adb")
  = [Spec.device_of ("ABC123", "device"); Spec.device_of ("10.0.0.2:5555", "offline")].
Proof.
  destruct (get_devices_listing (λ _, Completed 0 Sample.listing_spaces "")
              (ADBManager.init "adb")) as [H _].
  apply (H "List of devices attached"
           [("ABC123", "device"); ("10.0.0.2:5555", "offline")]
           [Sample.no_break_spaces; ""] "").
  - reflexivity.
  - repeat constructor.
  - repeat constructor.
  - reflexivity.
Defined.

(** *** The routing-table pattern *)

Lemma append_cons x (a b : string) : String x a +:+ b = String x (a +:+ b).
Proof. reflexivity. Qed.

Lemma append_assoc (a b c : string) : (a +:+ b) +:+ c = a +:+ (b +:+ c).
Proof.
  induction a as [|x a IH]; [reflexivity|].
  rewrite !append_cons. now rewrite IH.
Qed.

Lemma append_nil_r (a : string) : a +:+ "" = a.
Proof.
  induction a as [|x a IH]; [reflexivity|]. rewrite append_cons. now rewrite IH.
Qed.

Lemma str_take_drop k s : PyStr.take k s +:+ PyStr.drop k s = s.
Proof.
  revert s. induction k as [|k IH]; intros [|c s]; simpl; try reflexivity.
  rewrite append_cons. now rewrite IH.
Qed.

Lemma str_drop_length k s : (String.length (PyStr.drop k s) ≤ String.length s)%nat.
Proof.
  revert s. induction k as [|k IH]; intros [|c s]; simpl; try lia.
  specialize (IH s). lia.
Qed.

Lemma concat_app l1 l2 : PyStr.concat (l1 ++ l2) = PyStr.concat l1 +:+ PyStr.concat l2.
Proof.
  induction l1 as [|x l1 IH]; [reflexivity|].
  unfold PyStr.concat in *. simpl. rewrite IH. now rewrite append_assoc.
Qed.

Lemma chars_fuel_concat fuel : ∀ s,
  (String.length s ≤ fuel)%nat → PyStr.concat (PyStr.chars_fuel fuel s) = s.
Proof.
  induction fuel as [|fuel IH]; intros [|b s'] Hlen; simpl in Hlen;
    try reflexivity; try lia.
  cbn [PyStr.chars_fuel].
  destruct (PyStr.code_point (String b s')) as [[c w]|] eqn:Hcp.
  - change (PyStr.concat (?x :: ?l)) with (x +:+ PyStr.concat l).
    rewrite IH; [apply str_take_drop|].
    apply code_point_width in Hcp. destruct w as [|w]; [lia|]. simpl.
    pose proof (str_drop_length w s'). lia.
  - change (PyStr.concat (?x :: ?l)) with (x +:+ PyStr.concat l).
    rewrite IH by lia. reflexivity.
Qed.

(** The characters of a text, put together again, are the text: the fuel of
    [chars] is enough and no byte is lost. *)
Lemma chars_concat s : PyStr.concat (PyStr.chars s) = s.
Proof. apply chars_fuel_concat. reflexivity. Qed.

Lemma take_digits k s :
  (k ≤ Re.digit_run s)%nat → forallb PyStr.isdecimal (take k s) = true.
Proof.
  revert s. induction k as [|k IH]; intros [|c s]; simpl; try reflexivity.
  destruct (PyStr.isdecimal c) eqn:Hc; [|lia].
  intros H. simpl. apply IH. lia.
Qed.

Lemma take_number k s :
  (1 ≤ k ≤ Re.digit_run s)%nat → Spec.number (take k s) = true.
Proof.
  intros Hk. pose proof (take_digits k s (proj2 Hk)) as Hd.
  destruct k as [|k]; [lia|]. destruct s as [|c s]; simpl in *; [lia | exact Hd].
Qed.

Lemma backtrack_some {A} (f : nat → option A) n x :
  Re.backtrack f n = Some x → ∃ k, (1 ≤ k ≤ n)%nat ∧ f k = Some x.
Proof.
  induction n as [|n IH]; simpl; [discriminate|].
  destruct (f (S n)) eqn:Hf.
  - intros [= <-]. exists (S n). split; [lia | assumption].
  - intros H. destruct (IH H) as (k & Hk & Hfk). exists k. split; [lia | assumption].
Qed.

Lemma backtrack_top {A} (f : nat → option A) n x :
  n ≠ 0%nat → f n = Some x → Re.backtrack f n = Some x.
Proof.
  destruct n as [|n]; [congruence|]. intros _ Hx. simpl. now rewrite Hx.
Qed.

(** A successful match splits the subject into one piece per atom. *)
Lemma match_here_sound p : ∀ s pieces,
  Re.match_here p s = Some pieces →
  Forall2 Spec.atom_ok p pieces ∧ ∃ rest, s = List.concat pieces ++ rest.
Proof.
  induction p as [|a p IH]; intros s pieces; simpl.
  - intros [= <-]. split; [constructor | now exists s].
  - destruct a as [c|].
    + destruct s as [|ch s]; [discriminate|].
      destruct (String.eqb ch (String c "")) eqn:Hcd; [|discriminate].
      apply String.eqb_eq in Hcd as ->.
      destruct (Re.match_here p s) as [ps|] eqn:Hm; [|discriminate].
      intros [= <-]. destruct (IH _ _ Hm) as [HF [rest ->]].
      split; [constructor; [reflexivity | assumption] | now exists rest].
    + intros H. apply backtrack_some in H as (k & Hk & Hf).
      destruct (Re.match_here p (drop k s)) as [ps|] eqn:Hm; [|discriminate].
      injection Hf as <-. destruct (IH _ _ Hm) as [HF [rest Hrest]].
      split.
      * constructor; [|assumption]. now apply take_number.
      * exists rest. simpl. rewrite <- (assoc_L (++)), <- Hrest.
        symmetry. apply take_drop.
Qed.

Lemma drop_digit_run s : Spec.starts_nondigit (drop (Re.digit_run s) s).
Proof.
  induction s as [|c s IH]; simpl; [exact I|].
  destruct (PyStr.isdecimal c) eqn:Hc; simpl; [exact IH | exact Hc].
Qed.

(** A match of a pattern that ends in [\d+] stops in front of a non-digit. *)
Lemma match_here_greedy_end p : ∀ s pieces,
  last p = Some Re.Digits →
  Re.match_here p s = Some pieces →
  ∃ rest, s = List.concat pieces ++ rest ∧ Spec.starts_nondigit rest.
Proof.
  induction p as [|a p IH]; intros s pieces Hlast; [discriminate|].
  destruct p as [|a' p'].
  - injection Hlast as ->. intros H.
    change (Re.match_here [Re.Digits] s)
      with (Re.backtrack (λ k, Some [take k s]) (Re.digit_run s)) in H.
    destruct (Re.digit_run s) as [|n] eqn:Hn; [discriminate|].
    change (Re.backtrack (λ k, Some [take k s]) (S n))
      with (Some [take (S n) s]) in H.
    injection H as <-. exists (drop (S n) s). split.
    + cbn [List.concat]. rewrite app_nil_r. symmetry. apply take_drop.
    + rewrite <- Hn. apply drop_digit_run.
  - assert (last (a' :: p') = Some Re.Digits) as Hlast' by exact Hlast.
    destruct a as [c|].
    + intros H. destruct s as [|ch s]; [discriminate|].
      change (Re.match_here (Re.Chr c :: a' :: p') (ch :: s))
        with (if String.eqb ch (String c "")
              then option_map (cons [ch]) (Re.match_here (a' :: p') s)
              else None) in H.
      destruct (String.eqb ch (String c "")) eqn:Hcd; [|discriminate].
      destruct (Re.match_here (a' :: p') s) as [ps|] eqn:Hm; [|discriminate].
      injection H as <-. destruct (IH _ _ Hlast' Hm) as (rest & -> & Hnd).
      now exists rest.
    + intros H. change (Re.match_here (Re.Digits :: a' :: p') s)
        with (Re.backtrack
                (λ k, option_map (cons (take k s))
                                 (Re.match_here (a' :: p') (drop k s)))
                (Re.digit_run s)) in H.
      apply backtrack_some in H as (k & Hk & Hf).
      destruct (Re.match_here (a' :: p') (drop k s)) as [ps|] eqn:Hm; [|discriminate].
      injection Hf as <-. destruct (IH _ _ Hlast' Hm) as (rest & Hrest & Hnd).
      exists rest. split; [|assumption].
      cbn [List.concat]. rewrite <- (assoc_L (++)), <- Hrest. symmetry. apply take_drop.
Qed.

(** A match of the pattern at the start of [s] is [src ] followed by a
    dotted quad that stops in front of a non-digit, and the group is the
    text of that quad. *)
Lemma match_at_ip_sound s g :
  Re.match_at ADBManager.ip_pattern s = Some g →
  ∃ q rest,
    g = PyStr.concat q ∧ Spec.dotted_quad q
    ∧ s = Spec.src ++ q ++ rest ∧ Spec.starts_nondigit rest.
Proof.
  unfold Re.match_at.
  destruct (Re.match_here _ s) as [pieces|] eqn:Hm; [|discriminate].
  intros [= <-].
  destruct (match_here_greedy_end
              (Re.pre ADBManager.ip_pattern ++ Re.grp ADBManager.ip_pattern)
              s pieces eq_refl Hm) as (rest & -> & Hnd).
  apply match_here_sound in Hm as [HF _].
  simpl in HF.
  repeat match goal with
         | h : Forall2 _ (_ :: _) _ |- _ =>
             apply Forall2_cons_inv_l in h as (? & ? & ? & h & ->)
         | h : Forall2 _ [] _ |- _ => apply Forall2_nil_inv_l in h as ->
         | h : Spec.atom_ok (Re.Chr _) _ |- _ => unfold Spec.atom_ok in h; subst
         | h : Spec.atom_ok Re.Digits _ |- _ => unfold Spec.atom_ok in h
         end.
  eexists. exists rest. split; [reflexivity|]. split; [|split; [|assumption]].
  - cbn [length ADBManager.ip_pattern Re.pre Re.lit List.skipn List.concat].
    rewrite app_nil_r. unfold Spec.dotted_quad. eauto 10.
  - cbn [length ADBManager.ip_pattern Re.pre Re.lit List.skipn List.concat].
    rewrite app_nil_r. unfold Spec.src. simpl.
    rewrite <- !(assoc_L (++)). reflexivity.
Qed.

Lemma digit_run_number a r :
  forallb PyStr.isdecimal a = true → Spec.starts_nondigit r →
  Re.digit_run (a ++ r) = length a.
Proof.
  intros Ha Hr. induction a as [|x a IH].
  - simpl. destruct r; simpl in *; [reflexivity | now rewrite Hr].
  - simpl in Ha. apply andb_true_iff in Ha as [Hx Ha]. simpl.
    rewrite Hx. now rewrite IH.
Qed.

Lemma number_digits a :
  Spec.number a = true → a ≠ [] ∧ forallb PyStr.isdecimal a = true.
Proof. destruct a; [discriminate|]. intros H. split; [discriminate | exact H]. Qed.

Lemma match_here_chr c r p ps :
  Re.match_here p r = Some ps →
  Re.match_here (Re.Chr c :: p) (String c "" :: r) = Some ([String c ""] :: ps).
Proof. intros Hps. cbn [Re.match_here]. rewrite String.eqb_refl, Hps. reflexivity. Qed.

(** Greedy [\d+] followed by a non-digit: the whole run is taken at the
    first attempt. *)
Lemma match_here_digits a r p ps :
  Spec.number a = true → Spec.starts_nondigit r →
  Re.match_here p r = Some ps →
  Re.match_here (Re.Digits :: p) (a ++ r) = Some (a :: ps).
Proof.
  intros Ha Hr Hps. apply number_digits in Ha as [Hne Ha].
  simpl. apply backtrack_top.
  - rewrite digit_run_number by assumption. destruct a; [congruence | simpl; lia].
  - rewrite digit_run_number by assumption.
    rewrite take_app_length, drop_app_length, Hps. reflexivity.
Qed.

(** The last [\d+] of the pattern: any non-empty run of digits will do. *)
Lemma match_here_digits_last d after :
  Spec.number d = true → is_Some (Re.match_here [Re.Digits] (d ++ after)).
Proof.
  intros Hd. apply number_digits in Hd as [Hne Hd].
  destruct d as [|x d]; [congruence|]. simpl in Hd.
  apply andb_true_iff in Hd as [Hx _].
  change (Re.match_here [Re.Digits] ((x :: d) ++ after))
    with (Re.backtrack (λ k, Some [take k ((x :: d) ++ after)])
            (Re.digit_run ((x :: d) ++ after))).
  simpl Re.digit_run. rewrite Hx. simpl. eauto.
Qed.

Lemma dot_nondigit r : Spec.starts_nondigit ("." :: r).
Proof. vm_compute. reflexivity. Qed.

(** At a token whose last number is complete the match is the token. *)
Lemma match_at_ip_exact q after :
  Spec.dotted_quad q → Spec.starts_nondigit after →
  Re.match_at ADBManager.ip_pattern (Spec.src ++ q ++ after) = Some (PyStr.concat q).
Proof.
  intros (a & b & c & d & Ha & Hb & Hc & Hd & ->) Hnd.
  unfold Re.match_at.
  assert (Re.match_here (Re.pre ADBManager.ip_pattern ++ Re.grp ADBManager.ip_pattern)
            (Spec.src ++ (a ++ ["."] ++ b ++ ["."] ++ c ++ ["."] ++ d) ++ after)
          = Some [["s"]; ["r"]; ["c"]; [" "]; a; ["."]; b; ["."]; c; ["."]; d]) as ->.
  { rewrite <- !(assoc_L (++)).
    change (Re.pre ADBManager.ip_pattern ++ Re.grp ADBManager.ip_pattern)
      with [Re.Chr "s"; Re.Chr "r"; Re.Chr "c"; Re.Chr " ";
            Re.Digits; Re.Chr "."; Re.Digits; Re.Chr ".";
            Re.Digits; Re.Chr "."; Re.Digits].
    change (Spec.src ++ a ++ ["."] ++ b ++ ["."] ++ c ++ ["."] ++ d ++ after)
      with ("s" :: "r" :: "c" :: " " ::
            a ++ "." :: b ++ "." :: c ++ "." :: d ++ after).
    do 4 apply match_here_chr.
    apply match_here_digits; [assumption | apply dot_nondigit |]. apply match_here_chr.
    apply match_here_digits; [assumption | apply dot_nondigit |]. apply match_here_chr.
    apply match_here_digits; [assumption | apply dot_nondigit |]. apply match_here_chr.
    apply match_here_digits; [assumption | assumption | reflexivity]. }
  cbn [option_map length ADBManager.ip_pattern Re.pre Re.lit List.skipn List.concat].
  rewrite app_nil_r. reflexivity.
Qed.

(** At any token the pattern matches. *)
Lemma match_at_ip_complete q after :
  Spec.dotted_quad q →
  is_Some (Re.match_at ADBManager.ip_pattern (Spec.src ++ q ++ after)).
Proof.
  intros (a & b & c & d & Ha & Hb & Hc & Hd & ->).
  unfold Re.match_at.
  destruct (match_here_digits_last d after Hd) as [ps Hps].
  assert (Re.match_here (Re.pre ADBManager.ip_pattern ++ Re.grp ADBManager.ip_pattern)
            (Spec.src ++ (a ++ ["."] ++ b ++ ["."] ++ c ++ ["."] ++ d) ++ after)
          = Some ([["s"]; ["r"]; ["c"]; [" "]; a; ["."]; b; ["."]; c; ["."]] ++ ps)) as ->.
  { rewrite <- !(assoc_L (++)).
    change (Re.pre ADBManager.ip_pattern ++ Re.grp ADBManager.ip_pattern)
      with [Re.Chr "s"; Re.Chr "r"; Re.Chr "c"; Re.Chr " ";
            Re.Digits; Re.Chr "."; Re.Digits; Re.Chr ".";
            Re.Digits; Re.Chr "."; Re.Digits].
    change (Spec.src ++ a ++ ["."] ++ b ++ ["."] ++ c ++ ["."] ++ d ++ after)
      with ("s" :: "r" :: "c" :: " " ::
            a ++ "." :: b ++ "." :: c ++ "." :: d ++ after).
    do 4 apply match_here_chr.
    apply match_here_digits; [assumption | apply dot_nondigit |]. apply match_here_chr.
    apply match_here_digits; [assumption | apply dot_nondigit |]. apply match_here_chr.
    apply match_here_digits; [assumption | apply dot_nondigit |]. apply match_here_chr.
    exact Hps. }
  simpl. eauto.
Qed.

(** [re.search] returns the match at the first position that has one. *)
Lemma search_first pat s g :
  Re.search pat s = Some g →
  ∃ before s',
    s = before ++ s' ∧ Re.match_at pat s' = Some g
    ∧ ∀ b1 s1, s = b1 ++ s1 → (length b1 < length before)%nat →
        Re.match_at pat s1 = None.
Proof.
  induction s as [|c s IH]; simpl.
  - destruct (Re.match_at pat []) eqn:Hm; [|discriminate].
    intros [= <-]. exists [], []. repeat split; [assumption|]. simpl. lia.
  - destruct (Re.match_at pat (c :: s)) eqn:Hm.
    + intros [= <-]. exists [], (c :: s). repeat split; [assumption|]. simpl. lia.
    + intros H. destruct (IH H) as (before & s' & -> & Hs' & Hfirst).
      exists (c :: before), s'. repeat split; [assumption|].
      intros [|c1 b1] s1 Heq Hlen.
      * simpl in Heq. now subst s1.
      * simpl in Heq. injection Heq as -> Heq.
        apply (Hfirst b1 s1 Heq). simpl in Hlen. lia.
Qed.

(** [re.search] finds a match whenever the pattern matches somewhere. *)
Lemma search_complete pat before s' :
  is_Some (Re.match_at pat s') → is_Some (Re.search pat (before ++ s')).
Proof.
  intros [g Hg]. induction before as [|c before IH].
  - simpl. destruct s'; simpl; rewrite Hg; eauto.
  - simpl. destruct (Re.match_at pat (c :: before ++ s')); eauto.
Qed.

(** [re.search] returns the match of a position that no match precedes. *)
Lemma search_at pat before s' g :
  (∀ b1 s1, before ++ s' = b1 ++ s1 → (length b1 < length before)%nat →
     Re.match_at pat s1 = None) →
  Re.match_at pat s' = Some g →
  Re.search pat (before ++ s') = Some g.
Proof.
  intros Hfirst Hg. induction before as [|c before IH].
  - simpl. destruct s'; simpl; now rewrite Hg.
  - simpl. rewrite (Hfirst [] (c :: before ++ s') eq_refl) by (simpl; lia).
    apply IH. intros b1 s1 Heq Hlen.
    apply (Hfirst (c :: b1) s1); simpl; [now rewrite Heq | lia].
Qed.

Lemma truthy_app_r a b : PyStr.truthy b = true → PyStr.truthy (a +:+ b) = true.
Proof. destruct a; [trivial | reflexivity]. Qed.

(** The address [get_device_ip] returns is never the empty text. *)
Lemma dotted_quad_truthy q : Spec.dotted_quad q → PyStr.truthy (PyStr.concat q) = true.
Proof.
  intros (a & b & c & d & _ & _ & _ & _ & ->).
  induction a as [|y a IH]; [reflexivity|].
  change (PyStr.concat ((y :: a) ++ ["."] ++ b ++ ["."] ++ c ++ ["."] ++ d))
    with (y +:+ PyStr.concat (a ++ ["."] ++ b ++ ["."] ++ c ++ ["."] ++ d)).
  now apply truthy_app_r.
Qed.

(** C9. When the routing-table dump is obtained, [get_device_ip] returns
    what [re.search] extracts with the pattern [src (\d+\.\d+\.\d+\.\d+)]:
    an address is returned exactly when it is the text of the dotted quad of
    the first [src <ip>] token of the dump, with the last number of the quad
    taken as far as its digits go ([\d] being any decimal digit of Unicode);
    [None], the "not found" of the specification, is returned exactly when
    the dump has no such token, and also when the tool exits non-zero or
    cannot be run.  A returned address stands in the dump right after
    [src ].  A dump containing [src 192.168.1.42] yields ["192.168.1.42"]. *)
Theorem get_device_ip_src_token run self :
  (∀ dump err,
      run (adb_cmd (ADBManager.adb_path self) None ["shell"; "ip"; "route"])
        = Completed 0 dump err →
      (∀ ip, ADBManager.get_device_ip run self = Some ip ↔
             ∃ before q after,
               Spec.first_src_token (PyStr.chars dump) before q after
               ∧ ip = PyStr.concat q)
      ∧ (ADBManager.get_device_ip run self = None ↔
         ¬ ∃ before q after, Spec.src_token (PyStr.chars dump) before q after)
      ∧ (∀ ip, ADBManager.get_device_ip run self = Some ip →
           ∃ before after, dump = before +:+ "src " +:+ ip +:+ after))
  ∧ (∀ rc out err,
      run (adb_cmd (ADBManager.adb_path self) None ["shell"; "ip"; "route"])
        = Completed rc out err →
      rc ≠ 0 → ADBManager.get_device_ip run self = None)
  ∧ (∀ msg,
      run (adb_cmd (ADBManager.adb_path self) None ["shell"; "ip"; "route"])
        = RunError msg →
      ADBManager.get_device_ip run self = None)
  ∧ (∀ err,
      run (adb_cmd (ADBManager.adb_path self) None ["shell"; "ip"; "route"])
        = Completed 0 Spec.route_dump err →
      ADBManager.get_device_ip run self = Some "192.168.1.42").
Proof.
  split; [|split; [|split]].
  - intros dump err Hrun.
    assert (ADBManager.get_device_ip run self
            = Re.search ADBManager.ip_pattern (PyStr.chars dump)) as ->.
    { unfold ADBManager.get_device_ip, ADBManager._run_adb_command. now rewrite Hrun. }
    pose proof (chars_concat dump) as Hdump.
    revert Hdump. generalize (PyStr.chars dump). intros text Hdump.
    assert (∀ ip, Re.search ADBManager.ip_pattern text = Some ip →
              ∃ before q after,
                Spec.first_src_token text before q after ∧ ip = PyStr.concat q)
      as Hsound.
    { intros ip H. apply search_first in H as (before & s' & -> & Hm & Hfirst).
      apply match_at_ip_sound in Hm as (q & rest & -> & Hq & -> & Hnd).
      exists before, q, rest. split; [|reflexivity].
      split; [split; [assumption | reflexivity]|]. split; [assumption|].
      intros b1 q1 a1 [Hq1 Heq].
      destruct (decide (length b1 < length before)%nat) as [Hlt|]; [|lia].
      pose proof (Hfirst b1 _ Heq Hlt) as Hnone.
      destruct (match_at_ip_complete q1 a1 Hq1) as [g Hg]. congruence. }
    assert ((∃ before q after, Spec.src_token text before q after) →
            is_Some (Re.search ADBManager.ip_pattern text)) as Hcomplete.
    { intros (before & q & after & Hq & ->).
      apply search_complete. now apply match_at_ip_complete. }
    split.
    + intros ip. split; [apply Hsound|].
      intros (before & q & after & ([Hq ->] & Hnd & Hfirst) & ->).
      apply search_at; [|now apply match_at_ip_exact].
      intros b1 s1 Heq Hlen.
      destruct (Re.match_at ADBManager.ip_pattern s1) as [g|] eqn:Hm; [|reflexivity].
      exfalso. apply match_at_ip_sound in Hm as (q1 & rest & _ & Hq1 & -> & _).
      assert (Spec.src_token (before ++ Spec.src ++ q ++ after) b1 q1 rest) as Htok
        by (split; assumption).
      apply Hfirst in Htok. lia.
    + split; [split|].
      * intros Hnone Hex. apply Hcomplete in Hex as [ip Hip]. congruence.
      * intros Hno. destruct (Re.search ADBManager.ip_pattern text) as [ip|] eqn:Hs;
          [|reflexivity].
        exfalso. apply Hno.
        destruct (Hsound ip eq_refl) as (before & q & after & (Htok & _) & _).
        now exists before, q, after.
      * intros ip Hip.
        apply Hsound in Hip as (before & q & after & ([_ ->] & _) & ->).
        exists (PyStr.concat before), (PyStr.concat after).
        rewrite <- Hdump, !concat_app. reflexivity.
  - intros rc out err Hrun Hrc.
    unfold ADBManager.get_device_ip, ADBManager._run_adb_command. rewrite Hrun.
    replace (rc =? 0) with false by (symmetry; now apply Z.eqb_neq).
    reflexivity.
  - intros msg Hrun.
    unfold ADBManager.get_device_ip, ADBManager._run_adb_command. now rewrite Hrun.
  - intros err Hrun.
    unfold ADBManager.get_device_ip, ADBManager._run_adb_command. rewrite Hrun.
    vm_compute. reflexivity.
Qed.

Lemma get_device_ip_src_token_witness :
  ADBManager.get_device_ip (λ _, Completed 0 Spec.route_dump "") (ADBManager.init "adb")
  = Some "192.168.1.42".
Proof.
  destruct (get_device_ip_src_token (λ _, Completed 0 Spec.route_dump "")
              (ADBManager.init "adb")) as (_ & _ & _ & H).
  apply (H ""). reflexivity.
Defined.

(** ** The mirroring session *)

Ltac run_m :=
  unfold Scrcpy.bind, Scrcpy.ret, Scrcpy.get, Scrcpy.modify, Scrcpy.print,
    Scrcpy.on_world, Scrcpy.raise, Scrcpy.try_except, Scrcpy.try_finally,
    Scrcpy.any_Exception;
  cbn.

(** What [cleanup_adb_forward] does to a session whose port is set. *)
Lemma cleanup_adb_forward_set E st p :
  Scrcpy.local_port (Scrcpy.self st) = Some p → p ≠ 0 →
  ∃ w',
    Scrcpy.cleanup_adb_forward E st
    = (Ret tt, {| Scrcpy.self := Scrcpy.set_local_port None (Scrcpy.self st);
                  Scrcpy.world := w' |})
    ∧ commands w'
      = adb_cmd (Scrcpy.adb_path (Scrcpy.self st)) (Scrcpy.device_id (Scrcpy.self st))
          ["forward"; "--remove"; "tcp:" +:+ pretty p] :: commands (Scrcpy.world st)
    ∧ closed w' = closed (Scrcpy.world st)
    ∧ exited w' = exited (Scrcpy.world st)
    ∧ alive w' = alive (Scrcpy.world st)
    ∧ next_sock w' = next_sock (Scrcpy.world st)
    ∧ next_proc w' = next_proc (Scrcpy.world st)
    ∧ (∃ lines, stdout w' = lines ++ stdout (Scrcpy.world st)).
Proof.
  intros Hp Hnz. unfold Scrcpy.cleanup_adb_forward, Scrcpy.self_cmd, Scrcpy.subprocess_run.
  run_m. rewrite Hp. cbn.
  replace (p =? 0) with false by (symmetry; now apply Z.eqb_neq). cbn.
  destruct (env_run E _ _) as [rc out err|msg]; cbn;
    (eexists; split; [reflexivity|]; cbn; repeat split; try reflexivity).
  - now eexists [_].
  - now eexists [_].
Qed.

Lemma cleanup_adb_forward_unset E st :
  Scrcpy.port_truthy (Scrcpy.local_port (Scrcpy.self st)) = false →
  Scrcpy.cleanup_adb_forward E st = (Ret tt, st).
Proof.
  intros H. unfold Scrcpy.cleanup_adb_forward. run_m. now rewrite H.
Qed.

(** C10. On a session whose [local_port] is [None] or an allocated (hence
    non-zero) port, [cleanup_adb_forward] returns without raising and leaves
    [local_port] at [None], whatever the removal command does; with
    [local_port] already [None] it changes nothing and runs no command; with
    a port set it runs exactly the one removal command for that port; and a
    second call right after is a no-op. *)
Theorem cleanup_adb_forward_releases E st :
  Scrcpy.local_port (Scrcpy.self st) ≠ Some 0 →
  ∃ st',
    Scrcpy.cleanup_adb_forward E st = (Ret tt, st')
    ∧ Scrcpy.local_port (Scrcpy.self st') = None
    ∧ (Scrcpy.local_port (Scrcpy.self st) = None → st' = st)
    ∧ (∀ p, Scrcpy.local_port (Scrcpy.self st) = Some p →
         commands (Scrcpy.world st')
         = adb_cmd (Scrcpy.adb_path (Scrcpy.self st)) (Scrcpy.device_id (Scrcpy.self st))
             ["forward"; "--remove"; "tcp:" +:+ pretty p]
           :: commands (Scrcpy.world st))
    ∧ Scrcpy.cleanup_adb_forward E st' = (Ret tt, st').
Proof.
  intros Hnz. destruct (Scrcpy.local_port (Scrcpy.self st)) as [p|] eqn:Hp.
  - assert (p ≠ 0) as Hp0 by congruence.
    destruct (cleanup_adb_forward_set E st p Hp Hp0) as (w' & Hrun & Hcmd & _).
    eexists. split; [exact Hrun|]. cbn. split; [reflexivity|]. split; [discriminate|].
    split.
    + intros q [= <-]. exact Hcmd.
    + reflexivity.
  - exists st. rewrite cleanup_adb_forward_unset by now rewrite Hp.
    repeat split; auto. discriminate.
Qed.

Lemma cleanup_adb_forward_releases_witness :
  ∃ st',
    Scrcpy.cleanup_adb_forward Sample.env_ok Sample.with_port = (Ret tt, st')
    ∧ Scrcpy.local_port (Scrcpy.self st') = None.
Proof.
  destruct (cleanup_adb_forward_releases Sample.env_ok Sample.with_port)
    as (st' & H1 & H2 & _).
  - discriminate.
  - now exists st'.
Defined.

(** *** Stepping through a method *)

Lemma bind_ret {A B} (c : Scrcpy.M A) (f : A → Scrcpy.M B) st a st' :
  c st = (Ret a, st') → Scrcpy.bind c f st = f a st'.
Proof. intros H. unfold Scrcpy.bind. now rewrite H. Qed.

Lemma bind_raise {A B} (c : Scrcpy.M A) (f : A → Scrcpy.M B) st e st' :
  c st = (Raise e, st') → Scrcpy.bind c f st = (Raise e, st').
Proof. intros H. unfold Scrcpy.bind. now rewrite H. Qed.

Lemma bind_get {A B} (g : Scrcpy.t → A) (f : A → Scrcpy.M B) st :
  Scrcpy.bind (Scrcpy.get g) f st = f (g (Scrcpy.self st)) st.
Proof. reflexivity. Qed.

Lemma bind_modify {B} (g : Scrcpy.t → Scrcpy.t) (f : unit → Scrcpy.M B) st :
  Scrcpy.bind (Scrcpy.modify g) f st
  = f tt {| Scrcpy.self := g (Scrcpy.self st); Scrcpy.world := Scrcpy.world st |}.
Proof. reflexivity. Qed.

Lemma bind_print {B} line (f : unit → Scrcpy.M B) st :
  Scrcpy.bind (Scrcpy.print line) f st
  = f tt {| Scrcpy.self := Scrcpy.self st; Scrcpy.world := w_print line (Scrcpy.world st) |}.
Proof. reflexivity. Qed.

Lemma quiet_refl w : Spec.quiet w w.
Proof. unfold Spec.quiet. repeat split; reflexivity. Qed.

Lemma quiet_trans w1 w2 w3 : Spec.quiet w1 w2 → Spec.quiet w2 w3 → Spec.quiet w1 w3.
Proof.
  unfold Spec.quiet.
  intros (Hc & Hs & Hp & Ht & Hcl & Hex & Hal & Hout)
         (Hc' & Hs' & Hp' & Ht' & Hcl' & Hex' & Hal' & Hout').
  repeat split; try congruence; try set_solver.
  now transitivity (stdout w2).
Qed.

Lemma quiet_print line w : Spec.quiet w (w_print line w).
Proof.
  unfold Spec.quiet. simpl. repeat split; try reflexivity.
  now apply suffix_cons_r.
Qed.

Ltac quiet_leaf :=
  unfold Spec.quiet; simpl;
  repeat split; try reflexivity; try set_solver;
  try (apply suffix_cons_r; reflexivity).

(** One round of the socket loop never raises and leaves the socket closed. *)
Lemma close_quietly_spec E o s w :
  ∃ w',
    Scrcpy.close_quietly E o {| Scrcpy.self := s; Scrcpy.world := w |}
    = (Ret tt, {| Scrcpy.self := s; Scrcpy.world := w' |})
    ∧ Spec.quiet w w'
    ∧ (∀ x, o = Some x → x ∈ closed w').
Proof.
  destruct o as [x|].
  - unfold Scrcpy.close_quietly, Scrcpy.sock_shutdown, Scrcpy.sock_close. run_m.
    destruct (env_shutdown E (tick w)); cbn;
      destruct (env_close E (S (tick w))); cbn;
      (eexists; split; [reflexivity|]; split; [quiet_leaf|]);
      intros y [= <-]; simpl; set_solver.
  - exists w. split; [reflexivity|]. split; [apply quiet_refl | discriminate].
Qed.

(** One round of the thread loop never raises; a worker that is still alive
    afterwards has been reported by the time-out warning. *)
Lemma join_worker_spec E name o s w :
  ∃ w',
    Scrcpy.join_worker E name o {| Scrcpy.self := s; Scrcpy.world := w |}
    = (Ret tt, {| Scrcpy.self := s; Scrcpy.world := w' |})
    ∧ Spec.quiet w w'
    ∧ (∀ th, o = Some th → th ∈ alive w' → Scrcpy.join_warning name ∈ stdout w').
Proof.
  destruct o as [th|].
  - unfold Scrcpy.join_worker, Scrcpy.thread_is_alive, Scrcpy.thread_join. run_m.
    case_bool_decide as Hin; cbn.
    + destruct (env_running E (tick w)); cbn.
      * destruct (env_join E (S (tick w))); cbn.
        -- case_bool_decide as Hin'; [exfalso; set_solver|]. cbn.
           eexists; split; [reflexivity|]; split; [quiet_leaf|].
           intros y [= <-]; simpl; set_solver.
        -- case_bool_decide as Hin'; [|contradiction]. cbn.
           destruct (env_running E (S (S (tick w)))); cbn;
             (eexists; split; [reflexivity|]; split; [quiet_leaf|]);
             intros y [= <-]; simpl; set_solver.
      * eexists; split; [reflexivity|]; split; [quiet_leaf|].
        intros y [= <-]; simpl; set_solver.
    + eexists; split; [reflexivity|]; split; [apply quiet_refl|].
      intros y [= <-]; contradiction.
  - exists w. split; [reflexivity|]. split; [apply quiet_refl | discriminate].
Qed.

(** Terminating the child never raises and leaves it exited. *)
Lemma terminate_process_spec E o s w :
  ∃ w',
    Scrcpy.terminate_process E o {| Scrcpy.self := s; Scrcpy.world := w |}
    = (Ret tt, {| Scrcpy.self := s; Scrcpy.world := w' |})
    ∧ Spec.quiet w w'
    ∧ (∀ p, o = Some p → p ∈ exited w').
Proof.
  destruct o as [p|].
  - unfold Scrcpy.terminate_process, Scrcpy.proc_terminate, Scrcpy.proc_wait,
      Scrcpy.proc_kill. run_m.
    destruct (env_wait E (S (tick w))); cbn;
      (eexists; split; [reflexivity|]; split; [quiet_leaf|]);
      intros y [= <-]; simpl; set_solver.
  - exists w. split; [reflexivity|]. split; [apply quiet_refl | discriminate].
Qed.

Lemma elem_of_suffix {A} (x : A) (l1 l2 : list A) :
  l1 `suffix_of` l2 → x ∈ l1 → x ∈ l2.
Proof. intros [k ->] H. apply elem_of_app. now right. Qed.

Ltac suffix_chain :=
  solve [ reflexivity
        | apply suffix_cons_r; reflexivity
        | match goal with
          | H : ?m `suffix_of` ?l2 |- _ `suffix_of` ?l2 =>
              first [exact H | etrans; [|exact H]; clear H; suffix_chain]
          end ].

Lemma try_except_ret {A} (c : Scrcpy.M A) flt h st a st' :
  c st = (Ret a, st') → Scrcpy.try_except c flt h st = (Ret a, st').
Proof. intros H. unfold Scrcpy.try_except. now rewrite H. Qed.

(** [cleanup_adb_forward] on any session: it returns, clears a truthy port
    and runs the removal command for it. *)
Lemma cleanup_adb_forward_spec E s w :
  ∃ w',
    Scrcpy.cleanup_adb_forward E {| Scrcpy.self := s; Scrcpy.world := w |}
    = (Ret tt, {| Scrcpy.self := Spec.released s; Scrcpy.world := w' |})
    ∧ commands w' = Spec.stop_commands s ++ commands w
    ∧ closed w' = closed w ∧ exited w' = exited w ∧ alive w' = alive w
    ∧ next_sock w' = next_sock w ∧ next_proc w' = next_proc w
    ∧ stdout w `suffix_of` stdout w'.
Proof.
  unfold Spec.released, Spec.stop_commands.
  destruct (Scrcpy.local_port s) as [p|] eqn:Hp.
  - destruct (Scrcpy.port_truthy (Some p)) eqn:Ht.
    + assert (p ≠ 0) as Hp0.
      { simpl in Ht. apply negb_true_iff in Ht. now apply Z.eqb_neq. }
      destruct (cleanup_adb_forward_set E {| Scrcpy.self := s; Scrcpy.world := w |} p Hp Hp0)
        as (w' & Hrun & Hcmd & Hcl & Hex & Hal & Hns & Hnp & Hout).
      exists w'. simpl in *. repeat split; assumption.
    + exists w. rewrite cleanup_adb_forward_unset by (simpl; now rewrite Hp).
      repeat split; reflexivity.
  - exists w. rewrite cleanup_adb_forward_unset by (simpl; now rewrite Hp).
    repeat split; reflexivity.
Qed.

Ltac step_close :=
  match goal with
  | |- context [Scrcpy.bind (Scrcpy.close_quietly ?E ?o) _
                  {| Scrcpy.self := ?s; Scrcpy.world := ?w |}] =>
      let w' := fresh "w" in
      let H := fresh "H" in
      let Q := fresh "Q" in
      let C := fresh "C" in
      destruct (close_quietly_spec E o s w) as (w' & H & Q & C);
      rewrite (bind_ret _ _ _ _ _ H); clear H
  end.

Ltac step_join :=
  match goal with
  | |- context [Scrcpy.bind (Scrcpy.join_worker ?E ?name ?o) _
                  {| Scrcpy.self := ?s; Scrcpy.world := ?w |}] =>
      let w' := fresh "w" in
      let H := fresh "H" in
      let Q := fresh "Q" in
      let J := fresh "J" in
      destruct (join_worker_spec E name o s w) as (w' & H & Q & J);
      rewrite (bind_ret _ _ _ _ _ H); clear H
  end.

Ltac step_terminate :=
  match goal with
  | |- context [Scrcpy.bind (Scrcpy.terminate_process ?E ?o) _
                  {| Scrcpy.self := ?s; Scrcpy.world := ?w |}] =>
      let w' := fresh "w" in
      let H := fresh "H" in
      let Q := fresh "Q" in
      let X := fresh "X" in
      destruct (terminate_process_spec E o s w) as (w' & H & Q & X);
      rewrite (bind_ret _ _ _ _ _ H); clear H
  end.

Ltac step_pure :=
  repeat (first [rewrite bind_print | rewrite bind_modify | rewrite bind_get];
          cbn [Scrcpy.self Scrcpy.world]).

(** The stop sequence on any session object in any world: it returns, the
    object keeps its handles, every socket it refers to is closed, its child
    has exited, a truthy port is cleared after the removal command, and a
    worker that is still alive has been reported. *)
Lemma scrcpy_stop_spec E s w :
  ∃ w',
    Scrcpy.scrcpy_stop E {| Scrcpy.self := s; Scrcpy.world := w |}
    = (Ret tt, {| Scrcpy.self := Spec.stopped s; Scrcpy.world := w' |})
    ∧ commands w' = Spec.stop_commands s ++ commands w
    ∧ next_sock w' = next_sock w
    ∧ next_proc w' = next_proc w
    ∧ closed w ⊆ closed w'
    ∧ exited w ⊆ exited w'
    ∧ alive w' ⊆ alive w
    ∧ stdout w `suffix_of` stdout w'
    ∧ (∀ x, x ∈ Spec.sockets_of s → x ∈ closed w')
    ∧ (∀ p, Scrcpy.android_process s = Some p → p ∈ exited w')
    ∧ (∀ name th, (name, th) ∈ Spec.workers_of s → th ∈ alive w' →
         Scrcpy.join_warning name ∈ stdout w').
Proof.
  unfold Scrcpy.scrcpy_stop. step_pure.
  do 3 step_close. step_pure.
  do 3 step_join. step_pure.
  step_terminate. step_pure.
  step_join.
  match goal with
  | |- context [Scrcpy.try_except (Scrcpy.cleanup_adb_forward E) _ _] =>
      match goal with
      | |- context [{| Scrcpy.self := ?s1; Scrcpy.world := ?w1 |}] =>
          destruct (cleanup_adb_forward_spec E s1 w1)
            as (wc & Hc & Hcmd & Hcl & Hex & Hal & Hns & Hnp & Hout)
      end
  end.
  rewrite (bind_ret _ _ _ _ _ (try_except_ret _ _ _ _ _ _ Hc)).
  unfold Scrcpy.print, Scrcpy.on_world. cbn [Scrcpy.self Scrcpy.world].
  eexists. split; [reflexivity|].
  unfold Spec.quiet in *. simpl.
  repeat match goal with h : _ ∧ _ |- _ => destruct h end.
  assert (commands wc = Spec.stop_commands s ++ commands w) as Hcmds.
  { rewrite Hcmd. f_equal. simpl in *. congruence. }
  clear Hcmd. simpl in *.
  assert (stdout w `suffix_of` stdout w3) as S3 by suffix_chain.
  assert (stdout w3 `suffix_of` stdout wc) as S3c by suffix_chain.
  assert (stdout w4 `suffix_of` stdout wc) as S4c by suffix_chain.
  assert (stdout w5 `suffix_of` stdout wc) as S5c by suffix_chain.
  assert (stdout w7 `suffix_of` stdout wc) as S7c by suffix_chain.
  split; [exact Hcmds|].
  split; [congruence|]. split; [congruence|].
  split; [set_solver|]. split; [set_solver|]. split; [set_solver|].
  split; [apply suffix_cons_r; etrans; [exact S3 | exact S3c]|].
  split; [|split].
  - intros x Hx. unfold Spec.sockets_of in Hx.
    rewrite !elem_of_app in Hx. rewrite Hcl.
    destruct Hx as [Hx|[Hx|Hx]];
      [destruct (Scrcpy.video_socket s) eqn:Hv
      |destruct (Scrcpy.audio_socket s) eqn:Hv
      |destruct (Scrcpy.control_socket s) eqn:Hv];
      simpl in Hx; try (now apply elem_of_nil in Hx);
      apply list_elem_of_singleton in Hx as ->.
    + specialize (C _ eq_refl). set_solver.
    + specialize (C0 _ eq_refl). set_solver.
    + specialize (C1 _ eq_refl). set_solver.
  - intros p Hp. rewrite Hex. specialize (X _ Hp). set_solver.
  - intros name th Hin Halive. apply elem_of_cons. right.
    unfold Spec.workers_of in Hin. rewrite !elem_of_app in Hin.
    rewrite Hal in Halive.
    destruct Hin as [Hin|[Hin|[Hin|Hin]]];
      [destruct (Scrcpy.video_thread s) eqn:Hv
      |destruct (Scrcpy.audio_thread s) eqn:Hv
      |destruct (Scrcpy.control_thread s) eqn:Hv
      |destruct (Scrcpy.android_thread s) eqn:Hv];
      try (now apply elem_of_nil in Hin);
      apply list_elem_of_singleton in Hin; injection Hin as -> ->.
    + apply (elem_of_suffix _ (stdout w3)); [done|]. apply (J _ eq_refl). set_solver.
    + apply (elem_of_suffix _ (stdout w4)); [done|]. apply (J0 _ eq_refl). set_solver.
    + apply (elem_of_suffix _ (stdout w5)); [done|]. apply (J1 _ eq_refl). set_solver.
    + apply (elem_of_suffix _ (stdout w7)); [done|]. apply (J2 _ eq_refl). set_solver.
Qed.

(** *** The start sequence *)

Lemma probe_lower_bound bindable start_port max_attempts : ∀ n i p,
  Scrcpy.probe bindable start_port max_attempts i n = Ret p →
  start_port + Z.of_nat i ≤ p.
Proof.
  induction n as [|n IH]; intros i p; simpl; [discriminate|].
  destruct (Scrcpy.try_bind bindable (start_port + Z.of_nat i)) as [[]|e].
  - intros [= <-]. lia.
  - destruct (is_OSError e); [|discriminate].
    intros H. apply IH in H. lia.
Qed.

Lemma find_available_port_in_lower_bound bindable start_port max_attempts p :
  Scrcpy.find_available_port_in bindable start_port max_attempts = Ret p →
  start_port ≤ p.
Proof.
  unfold Scrcpy.find_available_port_in. intros H.
  apply probe_lower_bound in H. lia.
Qed.

#[local] Arguments Scrcpy.find_available_port_in : simpl never.
#[local] Arguments Scrcpy.cleanup_adb_forward : simpl never.
#[local] Arguments Scrcpy.scrcpy_stop : simpl never.
#[local] Arguments PyStr.contains : simpl never.
#[local] Arguments adb_cmd : simpl never.
#[local] Arguments pretty : simpl never.

(** When the set-up part of [scrcpy_start] hands over to the channel part,
    the session holds a freshly probed port (6666 or above), no socket has
    been created, and the only child spawned, if any, is the one recorded in
    [android_process]. *)
Lemma start_setup_ready E cb br s w st1 :
  Scrcpy.start_setup E cb br {| Scrcpy.self := s; Scrcpy.world := w |} = (Ret true, st1) →
  (∃ p, Scrcpy.local_port (Scrcpy.self st1) = Some p ∧ 6666 ≤ p)
  ∧ next_sock (Scrcpy.world st1) = next_sock w
  ∧ (next_proc (Scrcpy.world st1) = next_proc w
     ∨ (next_proc (Scrcpy.world st1) = S (next_proc w)
        ∧ Scrcpy.android_process (Scrcpy.self st1) = Some (next_proc w))).
Proof.
  unfold Scrcpy.start_setup, Scrcpy.push_server_to_device, Scrcpy.setup_adb_forward,
    Scrcpy.self_cmd, Scrcpy.subprocess_run, Scrcpy.find_available_port,
    Scrcpy.thread_new, Scrcpy.thread_start, Scrcpy.start_server, Scrcpy.popen.
  run_m.
  destruct (env_run E (tick w) _) as [rc out err|msg]; cbn; [|discriminate].
  destruct (PyStr.contains "device" out); cbn; [|discriminate].
  destruct (env_run E (S (tick w)) _) as [rc2 out2 err2|msg2]; cbn; [|discriminate].
  destruct (rc2 =? 0); cbn; [|discriminate].
  match goal with
  | |- context [Scrcpy.cleanup_adb_forward E {| Scrcpy.self := ?s1; Scrcpy.world := ?w1 |}] =>
      destruct (cleanup_adb_forward_spec E s1 w1)
        as (wc & Hc & Hcmd & Hcl & Hex & Hal & Hns & Hnp & Hout);
      rewrite Hc; clear Hc
  end.
  unfold Spec.released. cbn.
  destruct (Scrcpy.port_truthy (Scrcpy.local_port s)); cbn;
    (destruct (Scrcpy.find_available_port_in _ _ _) as [p|] eqn:Hfind; cbn; [|discriminate];
     apply find_available_port_in_lower_bound in Hfind;
     destruct (env_run E (S (tick wc)) _) as [rc3 out3 err3|msg3]; cbn; [|discriminate];
     destruct (rc3 =? 0); cbn; [|discriminate];
     destruct (env_thread_start E _); cbn; [|discriminate];
     destruct (env_popen E _); cbn;
     intros [= <-]; cbn in *;
     (split; [exists p; split; [reflexivity | exact Hfind]|]);
     (split; [congruence|]);
     [right; split; [congruence | f_equal; congruence] | left; congruence]).
Qed.

Ltac channel_leaf :=
  intros [= <- <-]; cbn;
  repeat split; try reflexivity; try assumption;
  intros x Hx; unfold Spec.sockets_of; cbn;
  rewrite ?elem_of_app, ?elem_of_cons, ?list_elem_of_singleton;
  try lia; auto.

(** When the channel part of [scrcpy_start] raises, every socket it has
    created so far is referred to by the session object, and it has touched
    neither the port, nor the child, nor the bridge. *)
Lemma open_channels_failed E s w e st2 :
  Scrcpy.open_channels E {| Scrcpy.self := s; Scrcpy.world := w |} = (Raise e, st2) →
  Scrcpy.local_port (Scrcpy.self st2) = Scrcpy.local_port s
  ∧ Scrcpy.android_process (Scrcpy.self st2) = Scrcpy.android_process s
  ∧ Scrcpy.adb_path (Scrcpy.self st2) = Scrcpy.adb_path s
  ∧ Scrcpy.device_id (Scrcpy.self st2) = Scrcpy.device_id s
  ∧ next_proc (Scrcpy.world st2) = next_proc w
  ∧ exited (Scrcpy.world st2) = exited w
  ∧ commands (Scrcpy.world st2) = commands w
  ∧ (∀ x, (next_sock w ≤ x < next_sock (Scrcpy.world st2))%nat →
       x ∈ Spec.sockets_of (Scrcpy.self st2)).
Proof.
  unfold Scrcpy.open_channels, Scrcpy.socket_socket, Scrcpy.sock_connect,
    Scrcpy.thread_new, Scrcpy.thread_start.
  run_m.
  destruct (env_socket E (tick w)); cbn; [|channel_leaf].
  destruct (Scrcpy.local_port s) as [p|] eqn:Hp; cbn; [|channel_leaf].
  destruct (env_connect E _); cbn; [|channel_leaf].
  destruct (env_socket E _); cbn; rewrite ?Hp; cbn; [|channel_leaf].
  destruct (env_connect E _); cbn; [|channel_leaf].
  destruct (env_socket E _); cbn; rewrite ?Hp; cbn; [|channel_leaf].
  destruct (env_connect E _); cbn; [|channel_leaf].
  destruct (env_thread_start E _); cbn; [|channel_leaf].
  destruct (env_thread_start E _); cbn; [|channel_leaf].
  destruct (env_thread_start E _); cbn; [|channel_leaf].
  discriminate.
Qed.

(** [scrcpy_stop] leaves every handle of the object where it was. *)
Lemma stopped_handles s :
  Spec.sockets_of (Spec.stopped s) = Spec.sockets_of s
  ∧ Spec.workers_of (Spec.stopped s) = Spec.workers_of s
  ∧ Scrcpy.android_process (Spec.stopped s) = Scrcpy.android_process s
  ∧ Scrcpy.stop (Spec.stopped s) = Some true.
Proof.
  unfold Spec.stopped, Spec.released.
  destruct (Scrcpy.port_truthy _); repeat split; reflexivity.
Qed.

Lemma stopped_local_port s :
  Scrcpy.local_port s ≠ Some 0 → Scrcpy.local_port (Spec.stopped s) = None.
Proof.
  unfold Spec.stopped, Spec.released. simpl.
  destruct (Scrcpy.local_port s) as [p|] eqn:Hp; simpl.
  - intros Hnz. replace (p =? 0) with false; [reflexivity|].
    symmetry. apply Z.eqb_neq. congruence.
  - now rewrite Hp.
Qed.

Lemma stop_commands_port s p :
  Scrcpy.local_port s = Some p → p ≠ 0 →
  Spec.stop_commands s = [Spec.remove_forward_cmd s p].
Proof.
  intros Hp Hnz. unfold Spec.stop_commands. rewrite Hp. simpl.
  replace (p =? 0) with false; [reflexivity|]. symmetry. now apply Z.eqb_neq.
Qed.

(** C1. Take any run of [scrcpy_start] whose set-up part hands over to the
    channel part and whose channel part (the three connections and the
    three workers) raises.  Then [scrcpy_start] returns [False]; before it
    does, the whole stop sequence has run on the session as the failure left
    it; and in the world it returns to, no socket the session refers to and
    no socket created since the run began is live, [local_port] is [None]
    and the last command run is the removal of the forward of the port this
    run had allocated, and neither the child recorded in [android_process]
    nor any child spawned since the run began is live. *)
Theorem scrcpy_start_channel_failure E cb br st st1 e st2 :
  Scrcpy.start_setup E cb br st = (Ret true, st1) →
  Scrcpy.open_channels E st1 = (Raise e, st2) →
  ∃ st3,
    Scrcpy.scrcpy_start E cb br st = (Ret false, st3)
    ∧ Scrcpy.scrcpy_stop E
        {| Scrcpy.self := Scrcpy.self st2;
           Scrcpy.world :=
             w_print ("Error establishing connections: " +:+ str_exn e) (Scrcpy.world st2) |}
      = (Ret tt, st3)
    ∧ (∀ x, x ∈ Spec.sockets_of (Scrcpy.self st3) → ¬ sock_live (Scrcpy.world st3) x)
    ∧ (∀ x, (next_sock (Scrcpy.world st) ≤ x)%nat → ¬ sock_live (Scrcpy.world st3) x)
    ∧ Scrcpy.local_port (Scrcpy.self st3) = None
    ∧ (∃ p, Scrcpy.local_port (Scrcpy.self st1) = Some p
            ∧ commands (Scrcpy.world st3)
              = Spec.remove_forward_cmd (Scrcpy.self st1) p :: commands (Scrcpy.world st1))
    ∧ (∀ p, Scrcpy.android_process (Scrcpy.self st3) = Some p →
            ¬ proc_live (Scrcpy.world st3) p)
    ∧ (∀ p, (next_proc (Scrcpy.world st) ≤ p)%nat → ¬ proc_live (Scrcpy.world st3) p).
Proof.
  destruct st as [s w], st1 as [s1 w1], st2 as [s2 w2]. intros Hsetup Hopen.
  destruct (start_setup_ready _ _ _ _ _ _ Hsetup) as ((p & Hp & Hp6) & Hns1 & Hproc1).
  destruct (open_channels_failed _ _ _ _ _ Hopen)
    as (Hlp & Hap & Hpath & Hdev & Hnp2 & Hex2 & Hcmd2 & Hsocks).
  cbn [Scrcpy.self Scrcpy.world] in *.
  destruct (scrcpy_stop_spec E s2
              (w_print ("Error establishing connections: " +:+ str_exn e) w2))
    as (w3 & Hstop & Hcmd3 & Hns3 & Hnp3 & Hcl3 & Hex3 & Hal3 & Hout3 & Hclosed & Hexited & _).
  destruct (stopped_handles s2) as (Hsk & _ & Hproc & _).
  assert (p ≠ 0) as Hpnz by lia.
  assert (Scrcpy.local_port s2 = Some p) as Hp2 by congruence.
  exists {| Scrcpy.self := Spec.stopped s2; Scrcpy.world := w3 |}.
  cbn [Scrcpy.self Scrcpy.world]. simpl in Hns3, Hnp3, Hcmd3.
  split; [|split; [exact Hstop|]].
  { unfold Scrcpy.scrcpy_start. rewrite (bind_ret _ _ _ _ _ Hsetup).
    unfold Scrcpy.try_except. rewrite (bind_raise _ _ _ _ _ Hopen).
    unfold Scrcpy.any_Exception. rewrite bind_print. cbn [Scrcpy.self Scrcpy.world].
    rewrite (bind_ret _ _ _ _ _ Hstop). reflexivity. }
  split; [|split; [|split; [|split; [|split]]]].
  - intros x Hx [_ Hlive]. rewrite Hsk in Hx. apply Hlive. now apply Hclosed.
  - intros x Hx [Hlt Hlive]. apply Hlive, Hclosed, Hsocks. lia.
  - apply stopped_local_port. congruence.
  - exists p. split; [assumption|].
    rewrite Hcmd3, (stop_commands_port s2 p Hp2 Hpnz). simpl.
    unfold Spec.remove_forward_cmd. now rewrite Hpath, Hdev, Hcmd2.
  - intros q Hq [_ Hlive]. rewrite Hproc in Hq. apply Hlive. now apply Hexited.
  - intros q Hq [Hlt Hlive]. apply Hlive.
    destruct Hproc1 as [Hsame|[Hnew Hrec]]; [lia|].
    assert (q = next_proc w) as -> by lia.
    apply Hexited. rewrite Hap. exact Hrec.
Qed.

Lemma scrcpy_start_channel_failure_witness :
  ∃ st3,
    Scrcpy.scrcpy_start Sample.env_refused 0 "1024000" Sample.fresh = (Ret false, st3)
    ∧ Scrcpy.local_port (Scrcpy.self st3) = None.
Proof.
  destruct (scrcpy_start_channel_failure Sample.env_refused 0%nat "1024000" Sample.fresh
              (Sample.after (Scrcpy.start_setup Sample.env_refused 0 "1024000") Sample.fresh)
              (OSError "Connection refused")
              (Sample.after (Scrcpy.open_channels Sample.env_refused)
                 (Sample.after (Scrcpy.start_setup Sample.env_refused 0 "1024000")
                    Sample.fresh)))
    as (st3 & Hstart & _ & _ & _ & Hport & _).
  - vm_compute. reflexivity.
  - vm_compute. reflexivity.
  - exists st3. split; assumption.
Defined.

(** *** Stopping twice *)

(** C4, as stated, fails: a session started and then stopped while its
    workers do not finish within the join time-out keeps running workers
    after the first stop and after the second one. *)
Lemma scrcpy_stop_twice_leaves_worker :
  (Scrcpy.scrcpy_start Sample.env_stuck 0 "1024000" Sample.fresh).1 = Ret true
  ∧ ¬ Spec.idle (Scrcpy.self Sample.stopped_once) (Scrcpy.world Sample.stopped_once)
  ∧ ¬ Spec.idle (Scrcpy.self Sample.stopped_twice) (Scrcpy.world Sample.stopped_twice).
Proof.
  split; [vm_compute; reflexivity|].
  split; intros [_ Hrel]; apply (Hrel "video_thread" 1%nat);
    refine (bool_decide_unpack _ _); vm_compute; exact I.
Qed.

(** C4, amended. On a session whose [local_port] is [None] or a port number
    (so not 0), in whatever state it is, two calls of [scrcpy_stop] in a row
    both return without raising.  After each of them the stop flag is set,
    no socket the session refers to is live, its child is not live and
    [local_port] is [None].  The first call runs one command, the removal of
    the forward of the port the session held, and none when it held no port;
    the second call runs no command.  Workers are not guaranteed to be
    released: one that is still running after a call has been reported by
    the warning of its join. *)
Theorem scrcpy_stop_twice E st :
  Scrcpy.local_port (Scrcpy.self st) ≠ Some 0 →
  ∃ st1 st2,
    Scrcpy.scrcpy_stop E st = (Ret tt, st1)
    ∧ Scrcpy.scrcpy_stop E st1 = (Ret tt, st2)
    ∧ Spec.torn_down (Scrcpy.self st1) (Scrcpy.world st1)
    ∧ Spec.workers_reported (Scrcpy.self st1) (Scrcpy.world st1)
    ∧ (∀ p, Scrcpy.local_port (Scrcpy.self st) = Some p →
         commands (Scrcpy.world st1)
         = Spec.remove_forward_cmd (Scrcpy.self st) p :: commands (Scrcpy.world st))
    ∧ (Scrcpy.local_port (Scrcpy.self st) = None →
         commands (Scrcpy.world st1) = commands (Scrcpy.world st))
    ∧ Spec.torn_down (Scrcpy.self st2) (Scrcpy.world st2)
    ∧ Spec.workers_reported (Scrcpy.self st2) (Scrcpy.world st2)
    ∧ commands (Scrcpy.world st2) = commands (Scrcpy.world st1).
Proof.
  destruct st as [s w]. cbn [Scrcpy.self Scrcpy.world]. intros Hnz.
  destruct (scrcpy_stop_spec E s w)
    as (w1 & Hstop1 & Hcmd1 & _ & _ & _ & _ & _ & _ & Hcl1 & Hex1 & Hrep1).
  destruct (scrcpy_stop_spec E (Spec.stopped s) w1)
    as (w2 & Hstop2 & Hcmd2 & _ & _ & _ & _ & _ & _ & Hcl2 & Hex2 & Hrep2).
  destruct (stopped_handles s) as (Hsk1 & Hwk1 & Hpr1 & Hflag1).
  destruct (stopped_handles (Spec.stopped s)) as (Hsk2 & Hwk2 & Hpr2 & Hflag2).
  pose proof (stopped_local_port s Hnz) as Hport1.
  assert (Scrcpy.local_port (Spec.stopped (Spec.stopped s)) = None) as Hport2.
  { apply stopped_local_port. rewrite Hport1. discriminate. }
  exists {| Scrcpy.self := Spec.stopped s; Scrcpy.world := w1 |},
         {| Scrcpy.self := Spec.stopped (Spec.stopped s); Scrcpy.world := w2 |}.
  cbn [Scrcpy.self Scrcpy.world].
  split; [exact Hstop1|]. split; [exact Hstop2|].
  unfold Spec.torn_down, Spec.workers_reported.
  split; [|split; [|split; [|split; [|split; [|split]]]]].
  - split; [assumption|]. split; [|split; [|assumption]].
    + intros x Hx [_ Hlive]. rewrite Hsk1 in Hx. auto.
    + intros p Hp [_ Hlive]. rewrite Hpr1 in Hp. eauto.
  - intros name th Hin. rewrite Hwk1 in Hin. eauto.
  - intros p Hp. rewrite Hcmd1.
    rewrite (stop_commands_port s p Hp) by congruence. reflexivity.
  - intros Hp. rewrite Hcmd1. unfold Spec.stop_commands. now rewrite Hp.
  - split; [assumption|]. split; [|split; [|assumption]].
    + intros x Hx [_ Hlive]. rewrite Hsk2 in Hx. auto.
    + intros p Hp [_ Hlive]. rewrite Hpr2 in Hp. eauto.
  - intros name th Hin. rewrite Hwk2 in Hin. eauto.
  - rewrite Hcmd2. unfold Spec.stop_commands. now rewrite Hport1.
Qed.

Lemma scrcpy_stop_twice_witness :
  ∃ st1 st2,
    Scrcpy.scrcpy_stop Sample.env_stuck Sample.running = (Ret tt, st1)
    ∧ Scrcpy.scrcpy_stop Sample.env_stuck st1 = (Ret tt, st2)
    ∧ Spec.torn_down (Scrcpy.self st1) (Scrcpy.world st1)
    ∧ Spec.torn_down (Scrcpy.self st2) (Scrcpy.world st2)
    ∧ commands (Scrcpy.world st1)
      = ["adb"; "-s"; "ABC123"; "forward"; "--remove"; "tcp:6669"]
        :: commands (Scrcpy.world Sample.running)
    ∧ commands (Scrcpy.world st2) = commands (Scrcpy.world st1).
Proof.
  destruct (scrcpy_stop_twice Sample.env_stuck Sample.running)
    as (st1 & st2 & H1 & H2 & H3 & _ & H4 & _ & H5 & _ & H6).
  - vm_compute. discriminate.
  - exists st1, st2.
    split; [exact H1|]. split; [exact H2|]. split; [exact H3|]. split; [exact H5|].
    split; [|exact H6].
    rewrite (H4 6669); [|vm_compute; reflexivity].
    f_equal.
Defined.

(** *** Where the start sequence departs from its description *)

(** C2. The device check of [scrcpy_start] looks for the substring "device"
    in the whole listing, and the header line "List of devices attached"
    always contains it.  On a device that the listing does not show, the
    check therefore passes and the push command is run: the run below ends
    with [False] only because the push itself fails, and the bridge has seen
    the push. *)
Theorem scrcpy_start_absent_device_pushes :
  PyStr.contains "device" Sample.listing_empty = true
  ∧ ADBManager.get_devices (λ _, Completed 0 Sample.listing_empty "") (ADBManager.init "adb") = []
  ∧ (Scrcpy.scrcpy_start Sample.env_absent 0 "1024000" Sample.fresh).1 = Ret false
  ∧ commands (Scrcpy.world
                (Sample.after (Scrcpy.scrcpy_start Sample.env_absent 0 "1024000")
                   Sample.fresh))
    = [ ["adb"; "-s"; "ABC123"; "push"; "scrcpy-server"; "/data/local/tmp/scrcpy-server.jar"];
        ["adb"; "-s"; "ABC123"; "devices"] ].
Proof. repeat split; vm_compute; reflexivity. Qed.

(** C3. When the forward command exits non-zero, [setup_adb_forward] raises
    [CalledProcessError] outside the [try] of [scrcpy_start]: the exception
    leaves [scrcpy_start] as it is, the session still holds the port it had
    allocated, and no removal command has been run. *)
Theorem scrcpy_start_forward_failure_keeps_port :
  (Scrcpy.scrcpy_start Sample.env_forward_fails 0 "1024000" Sample.fresh).1
    = Raise (CalledProcessError 1)
  ∧ Scrcpy.local_port
      (Scrcpy.self (Sample.after (Scrcpy.scrcpy_start Sample.env_forward_fails 0 "1024000")
                      Sample.fresh))
    = Some 6666
  ∧ Scrcpy.stop
      (Scrcpy.self (Sample.after (Scrcpy.scrcpy_start Sample.env_forward_fails 0 "1024000")
                      Sample.fresh))
    = Some false
  ∧ commands (Scrcpy.world
                (Sample.after (Scrcpy.scrcpy_start Sample.env_forward_fails 0 "1024000")
                   Sample.fresh))
    = [ ["adb"; "-s"; "ABC123"; "forward"; "tcp:6666"; "localabstract:scrcpy"];
        ["adb"; "-s"; "ABC123"; "push"; "scrcpy-server"; "/data/local/tmp/scrcpy-server.jar"];
        ["adb"; "-s"; "ABC123"; "devices"] ].
Proof. repeat split; vm_compute; reflexivity. Qed.

(** ** The device manager *)

Lemma entry_ok_cleared i s : DeviceManager.entry_ok
  {| DeviceManager.id := i; DeviceManager.state := s;
     DeviceManager.is_mirroring := false; DeviceManager.scrcpy := None |}.
Proof.
  unfold DeviceManager.entry_ok. simpl. split; [intros [x Hx]|]; discriminate.
Qed.

Lemma entry_ok_mirroring i s session : DeviceManager.entry_ok
  {| DeviceManager.id := i; DeviceManager.state := s;
     DeviceManager.is_mirroring := true; DeviceManager.scrcpy := Some session |}.
Proof. unfold DeviceManager.entry_ok. simpl. split; eauto. Qed.

Lemma registry_ok_insert self d e :
  DeviceManager.registry_ok self → DeviceManager.entry_ok e →
  DeviceManager.registry_ok
    (DeviceManager.set_devices (<[d := e]> (DeviceManager.devices self)) self).
Proof.
  intros Hok He d' e'. simpl. rewrite lookup_insert_Some.
  intros [[_ <-]|[_ H]]; [assumption | eauto].
Qed.

Lemma registry_ok_delete self d :
  DeviceManager.registry_ok self →
  DeviceManager.registry_ok
    (DeviceManager.set_devices (delete d (DeviceManager.devices self)) self).
Proof.
  intros Hok d' e'. simpl. rewrite lookup_delete_Some. intros [_ H]. eauto.
Qed.

Lemma add_device_ok self d s :
  DeviceManager.registry_ok self →
  DeviceManager.registry_ok (DeviceManager.add_device self d s).2.
Proof.
  intros Hok. unfold DeviceManager.add_device.
  destruct (DeviceManager.devices self !! d); simpl; [assumption|].
  apply registry_ok_insert; [assumption | apply entry_ok_cleared].
Qed.

Lemma remove_device_ok E self w d :
  DeviceManager.registry_ok self →
  DeviceManager.registry_ok (DeviceManager.remove_device E self w d).2.1.
Proof.
  intros Hok. unfold DeviceManager.remove_device.
  destruct (DeviceManager.devices self !! d) as [e|]; simpl; [|assumption].
  destruct (DeviceManager.scrcpy e) as [session|]; simpl.
  - destruct (Scrcpy.scrcpy_stop E _) as [[[]|x] st']; simpl;
      [now apply registry_ok_delete | assumption].
  - now apply registry_ok_delete.
Qed.

Lemma start_mirror_ok E br self w d cb :
  DeviceManager.registry_ok self →
  DeviceManager.registry_ok (DeviceManager.start_mirror E br self w d cb).2.1.
Proof.
  intros Hok. unfold DeviceManager.start_mirror.
  destruct (DeviceManager.devices self !! d) as [e|]; simpl; [|assumption].
  destruct (DeviceManager.is_mirroring e); simpl; [assumption|].
  destruct (Scrcpy.scrcpy_start E cb br _) as [[[|]|x] st']; simpl; try assumption.
  apply registry_ok_insert; [assumption | apply entry_ok_mirroring].
Qed.

Lemma stop_mirror_ok E self w d :
  DeviceManager.registry_ok self →
  DeviceManager.registry_ok (DeviceManager.stop_mirror E self w d).2.1.
Proof.
  intros Hok. unfold DeviceManager.stop_mirror.
  destruct (DeviceManager.devices self !! d) as [e|]; simpl; [|assumption].
  destruct (DeviceManager.is_mirroring e); simpl; [|assumption].
  destruct (DeviceManager.scrcpy e) as [session|]; simpl; [|assumption].
  destruct (Scrcpy.scrcpy_stop E _) as [[[]|x] st']; simpl; [|assumption].
  apply registry_ok_insert; [assumption | apply entry_ok_cleared].
Qed.

Lemma step_ok E br s o :
  DeviceManager.registry_ok s.1 → DeviceManager.registry_ok (DeviceManager.step E br s o).1.
Proof.
  intros Hok. destruct o as [d stt|d|d cb|d]; simpl.
  - now apply add_device_ok.
  - now apply remove_device_ok.
  - now apply start_mirror_ok.
  - now apply stop_mirror_ok.
Qed.

(** Every sequence of requests keeps the invariant. *)
Lemma run_ok E br ops : ∀ s,
  DeviceManager.registry_ok s.1 → DeviceManager.registry_ok (DeviceManager.run E br ops s).1.
Proof.
  unfold DeviceManager.run.
  induction ops as [|o ops IH]; intros s Hok; simpl; [assumption|].
  apply IH. now apply step_ok.
Qed.

Lemma registry_ok_init path : DeviceManager.registry_ok (DeviceManager.init path).
Proof. intros d e. simpl. rewrite lookup_empty. discriminate. Qed.

(** C7. Starting from the empty registry, after any sequence of
    [add_device], [remove_device], [start_mirror] and [stop_mirror] requests,
    in any environment, every entry holds a session exactly when it is
    marked as mirroring.  [start_mirror] on a device that is unknown or
    already mirroring returns [False] and touches nothing; on a known idle
    device it records the session and the mark together when the underlying
    [scrcpy_start] returns [True], and leaves the registry as it was
    otherwise.  [stop_mirror] on a mirroring device returns [True] and clears
    both the session and the mark, whatever the stop sequence met. *)
Theorem device_manager_session_iff_mirroring E br :
  (∀ ops path w,
      DeviceManager.registry_ok (DeviceManager.run E br ops (DeviceManager.init path, w)).1)
  ∧ (∀ self w d cb,
      (∀ e, DeviceManager.devices self !! d = Some e → DeviceManager.is_mirroring e = true) →
      DeviceManager.start_mirror E br self w d cb = (Ret false, (self, w)))
  ∧ (∀ self w d cb e,
      DeviceManager.devices self !! d = Some e →
      DeviceManager.is_mirroring e = false →
      let started :=
        Scrcpy.scrcpy_start E cb br
          {| Scrcpy.self :=
               Scrcpy.set_device_id (Some d)
                 (Scrcpy.init (ADBManager.adb_path (DeviceManager.adb_manager self)));
             Scrcpy.world := w |} in
      let result := DeviceManager.start_mirror E br self w d cb in
      (started.1 = Ret true →
         result.1 = Ret true
         ∧ DeviceManager.devices result.2.1 !! d
           = Some {| DeviceManager.id := DeviceManager.id e;
                     DeviceManager.state := DeviceManager.state e;
                     DeviceManager.is_mirroring := true;
                     DeviceManager.scrcpy := Some (Scrcpy.self started.2) |})
      ∧ (started.1 ≠ Ret true → result.1 = started.1 ∧ result.2.1 = self))
  ∧ (∀ self w d e session,
      DeviceManager.devices self !! d = Some e →
      DeviceManager.is_mirroring e = true →
      DeviceManager.scrcpy e = Some session →
      let result := DeviceManager.stop_mirror E self w d in
      result.1 = Ret true
      ∧ DeviceManager.devices result.2.1 !! d
        = Some {| DeviceManager.id := DeviceManager.id e;
                  DeviceManager.state := DeviceManager.state e;
                  DeviceManager.is_mirroring := false;
                  DeviceManager.scrcpy := None |}).
Proof.
  split; [|split; [|split]].
  - intros ops path w. apply run_ok. simpl. apply registry_ok_init.
  - intros self w d cb Hrej. unfold DeviceManager.start_mirror.
    destruct (DeviceManager.devices self !! d) as [e|] eqn:He; [|reflexivity].
    now rewrite (Hrej e eq_refl).
  - intros self w d cb e He Hidle started result. subst result.
    unfold DeviceManager.start_mirror. rewrite He, Hidle. simpl negb. cbv iota.
    fold started. destruct started as [[[|]|x] st']; simpl.
    + split; [|congruence]. intros _. split; [reflexivity|]. apply lookup_insert_eq.
    + split; [discriminate|]. intros _. split; reflexivity.
    + split; [discriminate|]. intros _. split; reflexivity.
  - intros self w d e session He Hmir Hsess result. subst result.
    unfold DeviceManager.stop_mirror. rewrite He, Hmir, Hsess.
    destruct (scrcpy_stop_spec E session w) as (w' & Hstop & _).
    rewrite Hstop. simpl. split; [reflexivity|]. apply lookup_insert_eq.
Qed.

Lemma device_manager_session_iff_mirroring_witness :
  (DeviceManager.start_mirror Sample.env_ok "1024000" Sample.registry World_init
     "ABC123" 0).1 = Ret true
  ∧ DeviceManager.devices Sample.mirroring.1 !! "ABC123" = Some Sample.entry_mirroring
  ∧ (DeviceManager.stop_mirror Sample.env_ok Sample.mirroring.1 Sample.mirroring.2
       "ABC123").1 = Ret true
  ∧ DeviceManager.devices
      (DeviceManager.stop_mirror Sample.env_ok Sample.mirroring.1 Sample.mirroring.2
         "ABC123").2.1 !! "ABC123"
    = Some Sample.entry_idle.
Proof.
  destruct (device_manager_session_iff_mirroring Sample.env_ok "1024000")
    as (_ & _ & Hstart & Hstop).
  pose proof (Hstart Sample.registry World_init "ABC123" 0%nat Sample.entry_idle)
    as Hstarted.
  cbv zeta in Hstarted.
  destruct Hstarted as [Hstarted _]; [vm_compute; reflexivity | reflexivity |].
  destruct Hstarted as [Hres Hentry]; [vm_compute; reflexivity|].
  pose proof (Hstop Sample.mirroring.1 Sample.mirroring.2 "ABC123"
                Sample.entry_mirroring Sample.session Hentry eq_refl eq_refl)
    as Hstopped.
  cbv zeta in Hstopped. destruct Hstopped as [Hres' Hentry'].
  split; [exact Hres|]. split; [exact Hentry|]. split; [exact Hres' | exact Hentry'].
Defined.

(** * Further properties of the code *)

(** ** The device bridge *)

(** No field of a split contains the separator. *)
Lemma split_no_sep sep s : ∀ x, x ∈ PyStr.split sep s → PyStr.has_char sep x = false.
Proof.
  induction s as [|c s IH]; simpl; intros x Hx.
  - apply list_elem_of_singleton in Hx as ->. reflexivity.
  - destruct (Ascii.eqb c sep) eqn:Hc.
    + apply elem_of_cons in Hx as [->|Hx]; [reflexivity | now apply IH].
    + destruct (PyStr.split sep s) as [|w ws] eqn:Hs.
      * apply list_elem_of_singleton in Hx as ->. simpl.
        rewrite Ascii.eqb_sym, Hc. reflexivity.
      * apply elem_of_cons in Hx as [->|Hx].
        -- simpl. rewrite Ascii.eqb_sym, Hc. simpl. apply IH. left.
        -- apply IH. now right.
Qed.

(** A character absent from the text is absent from every field. *)
Lemma split_keeps_absent c sep s :
  PyStr.has_char c s = false → ∀ x, x ∈ PyStr.split sep s → PyStr.has_char c x = false.
Proof.
  induction s as [|d s IH]; simpl; intros Hs x Hx.
  - apply list_elem_of_singleton in Hx as ->. reflexivity.
  - apply orb_false_iff in Hs as [Hd Hs]. specialize (IH Hs).
    destruct (Ascii.eqb d sep).
    + apply elem_of_cons in Hx as [->|Hx]; [reflexivity | now apply IH].
    + destruct (PyStr.split sep s) as [|w ws] eqn:Hsp.
      * apply list_elem_of_singleton in Hx as ->. simpl. now rewrite Hd.
      * apply elem_of_cons in Hx as [->|Hx].
        -- simpl. rewrite Hd. simpl. apply IH. left.
        -- apply IH. now right.
Qed.

Lemma omap_length_le {A B} (f : A → option B) (l : list A) :
  (length (omap f l) ≤ length l)%nat.
Proof.
  induction l as [|x l IH]; [reflexivity|].
  change (omap f (x :: l))
    with (match f x with Some y => y :: omap f l | None => omap f l end).
  destruct (f x); simpl; lia.
Qed.

Lemma parse_line_fields line d :
  ADBManager.parse_line line = Some d →
  ∃ rest, PyStr.split PyStr.TAB line = ADBManager.id d :: ADBManager.state d :: rest
          ∧ ADBManager.is_tcp d = PyStr.has_char ":" (ADBManager.id d).
Proof.
  unfold ADBManager.parse_line.
  destruct (PyStr.truthy (PyStr.strip line)); [|discriminate].
  destruct (PyStr.split PyStr.TAB line) as [|p0 [|p1 rest]]; try discriminate.
  intros [= <-]. simpl. now exists rest.
Qed.

(** X1. Whatever the tool prints, an entry returned by [get_devices] has an
    id and a state free of TABs and line breaks, its [is_tcp] flag says
    whether the id contains a colon, and there are at most as many entries
    as there are lines after the first one: the header never yields one. *)
Theorem get_devices_entries run self :
  (∀ d, d ∈ ADBManager.get_devices run self →
      PyStr.has_char PyStr.TAB (ADBManager.id d) = false
      ∧ PyStr.has_char PyStr.TAB (ADBManager.state d) = false
      ∧ PyStr.has_char PyStr.LF (ADBManager.id d) = false
      ∧ PyStr.has_char PyStr.LF (ADBManager.state d) = false
      ∧ ADBManager.is_tcp d = PyStr.has_char ":" (ADBManager.id d))
  ∧ (∀ out err,
      run (adb_cmd (ADBManager.adb_path self) None ["devices"]) = Completed 0 out err →
      (length (ADBManager.get_devices run self) < length (PyStr.split PyStr.LF out))%nat).
Proof.
  unfold ADBManager.get_devices, ADBManager._run_adb_command. split.
  - intros d.
    destruct (run _) as [rc out err|msg]; simpl; [|intros H; now apply elem_of_nil in H].
    destruct (rc =? 0); simpl; [|intros H; now apply elem_of_nil in H].
    rewrite list_elem_of_omap. intros (line & Hline & Hparse).
    assert (line ∈ PyStr.split PyStr.LF out) as Hin.
    { destruct (PyStr.split PyStr.LF out) as [|h t]; simpl in Hline;
        [now apply elem_of_nil in Hline | now right]. }
    pose proof (split_no_sep _ _ _ Hin) as Hlf.
    destruct (parse_line_fields _ _ Hparse) as (rest & Hsplit & Htcp).
    assert (ADBManager.id d ∈ PyStr.split PyStr.TAB line) as Hid
      by (rewrite Hsplit; left).
    assert (ADBManager.state d ∈ PyStr.split PyStr.TAB line) as Hst
      by (rewrite Hsplit; right; left).
    repeat split; try assumption.
    + now apply (split_no_sep PyStr.TAB line).
    + now apply (split_no_sep PyStr.TAB line).
    + now apply (split_keeps_absent _ PyStr.TAB line).
    + now apply (split_keeps_absent _ PyStr.TAB line).
  - intros out err Hrun. rewrite Hrun. simpl.
    destruct (PyStr.split PyStr.LF out) as [|h t] eqn:Hs.
    + destruct out; simpl in Hs; [discriminate|].
      destruct (Ascii.eqb _ _); [discriminate|].
      destruct (PyStr.split PyStr.LF out); discriminate.
    + simpl. rewrite drop_0. pose proof (omap_length_le ADBManager.parse_line t). lia.
Qed.

Lemma get_device_ip_truthy run self ip :
  ADBManager.get_device_ip run self = Some ip → PyStr.truthy ip = true.
Proof.
  unfold ADBManager.get_device_ip.
  destruct (ADBManager._run_adb_command _ _ _ _) as [success output].
  destruct (negb success); [discriminate|].
  intros H. apply search_first in H as (before & s' & _ & Hm & _).
  apply match_at_ip_sound in Hm as (q & rest & -> & Hq & _).
  now apply dotted_quad_truthy.
Qed.

(** X2. Once a USB device is listed, its address is found and the [tcpip]
    command exits with status zero, [enable_tcp_mode] reports success with
    that address whatever the connection attempt gives: the test
    [if self.connect_to_device(ip)] is made on the pair the method returns.
    The manager is left as [connect_to_device] left it, so after a refused
    connection the result is success while no device is recorded. *)
Theorem enable_tcp_mode_ignores_connect run self ip out err :
  List.filter (λ d, negb (ADBManager.is_tcp d)) (ADBManager.get_devices run self) ≠ [] →
  ADBManager.get_device_ip run self = Some ip →
  run (adb_cmd (ADBManager.adb_path self) None ["tcpip"; "5555"]) = Completed 0 out err →
  (ADBManager.enable_tcp_mode run self).1 = (true, ip)
  ∧ (ADBManager.enable_tcp_mode run self).2
    = (ADBManager.connect_to_device run self ip 5555).2.
Proof.
  intros Husb Hip Htcp.
  assert (ADBManager.enable_tcp_mode run self
          = ((true, ip), (ADBManager.connect_to_device run self ip 5555).2)) as ->.
  { unfold ADBManager.enable_tcp_mode.
    destruct (List.filter _ _) as [|u us]; [congruence|].
    rewrite Hip, (get_device_ip_truthy _ _ _ Hip).
    replace (ADBManager._run_adb_command run self ["tcpip"; "5555"] None)
      with (true, out)
      by (unfold ADBManager._run_adb_command; now rewrite Htcp).
    simpl.
    destruct (ADBManager.connect_to_device run self ip 5555) as [connected self'].
    reflexivity. }
  split; reflexivity.
Qed.

Lemma enable_tcp_mode_ignores_connect_witness :
  (ADBManager.enable_tcp_mode Sample.tool_tcpip_refused (ADBManager.init "adb")).1
    = (true, "192.168.1.42")
  ∧ (ADBManager.enable_tcp_mode Sample.tool_tcpip_refused (ADBManager.init "adb")).2
    = (ADBManager.connect_to_device Sample.tool_tcpip_refused (ADBManager.init "adb")
         "192.168.1.42" 5555).2.
Proof.
  apply (enable_tcp_mode_ignores_connect Sample.tool_tcpip_refused (ADBManager.init "adb")
           "192.168.1.42" "restarting in TCP mode port: 5555" "").
  - vm_compute. discriminate.
  - vm_compute. reflexivity.
  - reflexivity.
Defined.

(** X3. [enable_tcp_mode] without any USB device in the listing (every
    listed device has a colon in its id, or none is listed) returns the
    failure "no USB device" whatever the other commands would answer, and
    every failure of [enable_tcp_mode] leaves the manager as it was. *)
Theorem enable_tcp_mode_failure_keeps_manager run self :
  (List.filter (λ d, negb (ADBManager.is_tcp d)) (ADBManager.get_devices run self) = [] →
     ADBManager.enable_tcp_mode run self
     = ((false, "没有找到通过USB连接的设备"), self))
  ∧ ((ADBManager.enable_tcp_mode run self).1.1 = false →
     (ADBManager.enable_tcp_mode run self).2 = self).
Proof.
  unfold ADBManager.enable_tcp_mode. split.
  - intros ->. reflexivity.
  - destruct (List.filter _ _) as [|u us]; [reflexivity|].
    destruct (ADBManager.get_device_ip run self) as [ip|]; [|reflexivity].
    destruct (PyStr.truthy ip); [|reflexivity].
    destruct (ADBManager._run_adb_command _ _ _ _) as [success output].
    destruct success; simpl; [|reflexivity].
    destruct (ADBManager.connect_to_device run self ip 5555) as [connected self'].
    simpl. discriminate.
Qed.

(** X4. [disconnect_device] forgets the current device and the TCP flag
    exactly when the disconnect command exits with status zero and leaves
    the manager untouched otherwise; a successful [connect_to_device]
    followed by a successful [disconnect_device] brings the manager back to
    its initial state. *)
Theorem disconnect_device_clears_on_success run self ip port :
  let result := ADBManager.disconnect_device run self ip port in
  (result.1 = true →
     ADBManager.current_device result.2 = None
     ∧ ADBManager.is_tcp_mode result.2 = false
     ∧ ADBManager.adb_path result.2 = ADBManager.adb_path self)
  ∧ (result.1 = false → result.2 = self)
  ∧ (∀ ip' port',
       (ADBManager.connect_to_device run self ip' port').1.1 = true →
       (ADBManager.disconnect_device run
          (ADBManager.connect_to_device run self ip' port').2 ip port).1 = true →
       (ADBManager.disconnect_device run
          (ADBManager.connect_to_device run self ip' port').2 ip port).2
       = ADBManager.init (ADBManager.adb_path self)).
Proof.
  assert (∀ m, let r := ADBManager.disconnect_device run m ip port in
               (r.1 = true → r.2 = ADBManager.init (ADBManager.adb_path m))
               ∧ (r.1 = false → r.2 = m)) as Hcase.
  { intros m. unfold ADBManager.disconnect_device.
    destruct ip as [a|]; [destruct (PyStr.truthy a)|];
      destruct (ADBManager._run_adb_command _ _ _ _) as [[] ?]; simpl;
      split; intros; first [reflexivity | discriminate]. }
  intros result. subst result. split; [|split].
  - intros H. destruct (Hcase self) as [Hs _]. rewrite (Hs H). repeat split.
  - intros H. destruct (Hcase self) as [_ Hf]. exact (Hf H).
  - intros ip' port' Hconn Hdis.
    destruct (Hcase (ADBManager.connect_to_device run self ip' port').2) as [Hs _].
    rewrite (Hs Hdis). f_equal.
    unfold ADBManager.connect_to_device.
    destruct (ADBManager._run_adb_command _ _ _ _) as [success output].
    destruct (success && _); reflexivity.
Qed.

(** ** Port probing, the other way round *)

Lemma try_bind_ret bindable port :
  Scrcpy.try_bind bindable port = Ret tt → 0 ≤ port ≤ 65535 ∧ bindable port = true.
Proof.
  unfold Scrcpy.try_bind.
  destruct (port <? 0) eqn:H0; simpl; [discriminate|].
  destruct (65535 <? port) eqn:H1; simpl; [discriminate|].
  destruct (bindable port); [|discriminate].
  intros _. apply Z.ltb_ge in H0. apply Z.ltb_ge in H1. split; [lia | reflexivity].
Qed.

Lemma try_bind_oserror bindable port e :
  Scrcpy.try_bind bindable port = Raise e → is_OSError e = true →
  0 ≤ port ≤ 65535 ∧ bindable port = false.
Proof.
  unfold Scrcpy.try_bind.
  destruct (port <? 0) eqn:H0; simpl; [intros [= <-]; discriminate|].
  destruct (65535 <? port) eqn:H1; simpl; [intros [= <-]; discriminate|].
  destruct (bindable port); [discriminate|].
  intros _ _. apply Z.ltb_ge in H0. apply Z.ltb_ge in H1. split; [lia | reflexivity].
Qed.

Lemma probe_sound bindable start_port max_attempts : ∀ n i p,
  Scrcpy.probe bindable start_port max_attempts i n = Ret p →
  start_port + Z.of_nat i ≤ p < start_port + Z.of_nat (i + n)
  ∧ 0 ≤ p ≤ 65535
  ∧ bindable p = true
  ∧ ∀ q, start_port + Z.of_nat i ≤ q < p → 0 ≤ q ≤ 65535 ∧ bindable q = false.
Proof.
  induction n as [|n IH]; intros i p; simpl; [discriminate|].
  destruct (Scrcpy.try_bind bindable (start_port + Z.of_nat i)) as [[]|e] eqn:Hb.
  - intros [= <-]. apply try_bind_ret in Hb as [Hr Hf].
    split; [lia|]. split; [lia|]. split; [assumption|]. intros q Hq. lia.
  - destruct (is_OSError e) eqn:He; [|discriminate].
    apply (try_bind_oserror _ _ _ Hb) in He as [Hr Hbusy].
    intros H. apply IH in H as (Hlo & Hr' & Hf & Hbelow).
    split; [lia|]. split; [lia|]. split; [assumption|]. intros q Hq.
    destruct (decide (q = start_port + Z.of_nat i)) as [->|Hne].
    + split; assumption.
    + apply Hbelow. lia.
Qed.

(** X5. A port returned by [find_available_port] lies in the probed range
    [start_port, start_port + max_attempts), is a TCP port that could be
    bound, and every port of the range below it was tried and could not be
    bound: the result is the lowest free port of the range. *)
Theorem find_available_port_lowest_free E st start_port max_attempts p :
  (Scrcpy.find_available_port E start_port max_attempts st).1 = Ret p →
  let bindable := env_bindable E (tick (Scrcpy.world st)) in
  start_port ≤ p < start_port + Z.of_nat max_attempts
  ∧ 0 ≤ p ≤ 65535
  ∧ bindable p = true
  ∧ ∀ q, start_port ≤ q < p → bindable q = false.
Proof.
  unfold Scrcpy.find_available_port, Scrcpy.find_available_port_in. simpl.
  intros H. apply probe_sound in H as (Hr & Hp & Hf & Hbelow).
  split; [lia|]. split; [lia|]. split; [assumption|].
  intros q Hq. apply Hbelow. lia.
Qed.

Lemma find_available_port_lowest_free_witness :
  6666 ≤ 6669 < 6666 + Z.of_nat 100
  ∧ 0 ≤ 6669 ≤ 65535
  ∧ env_bindable Sample.env_ok (tick (Scrcpy.world Sample.fresh)) 6669 = true
  ∧ ∀ q, 6666 ≤ q < 6669 →
         env_bindable Sample.env_ok (tick (Scrcpy.world Sample.fresh)) q = false.
Proof.
  apply (find_available_port_lowest_free Sample.env_ok Sample.fresh 6666 100 6669).
  vm_compute. reflexivity.
Defined.

Lemma probe_overflow bindable start_port max_attempts : ∀ n i,
  0 ≤ start_port + Z.of_nat i ≤ 65536 →
  65536 < start_port + Z.of_nat (i + n) →
  (∀ q, start_port + Z.of_nat i ≤ q ≤ 65535 → bindable q = false) →
  Scrcpy.probe bindable start_port max_attempts i n = Raise OverflowError.
Proof.
  induction n as [|n IH]; intros i Hlo Hhi Hbusy; [lia|].
  simpl. destruct (decide (start_port + Z.of_nat i = 65536)) as [Heq|Hne].
  - unfold Scrcpy.try_bind. rewrite Heq. reflexivity.
  - rewrite try_bind_busy; [simpl | lia | apply Hbusy; lia].
    apply IH; [lia | lia |]. intros q Hq. apply Hbusy. lia.
Qed.

(** X6. A scan that starts at a valid port, finds every port up to 65535
    occupied and still has attempts left goes on to port 65536, where
    [bind] raises [OverflowError]: the error leaves [find_available_port]
    instead of the exhaustion exception, because only [OSError] is caught. *)
Theorem find_available_port_past_last_port E st start_port max_attempts :
  0 ≤ start_port ≤ 65535 →
  65536 < start_port + Z.of_nat max_attempts →
  (∀ q, start_port ≤ q ≤ 65535 → env_bindable E (tick (Scrcpy.world st)) q = false) →
  (Scrcpy.find_available_port E start_port max_attempts st).1 = Raise OverflowError.
Proof.
  intros Hs Hm Hbusy. unfold Scrcpy.find_available_port, Scrcpy.find_available_port_in.
  simpl. apply probe_overflow; simpl; try lia.
  intros q Hq. apply Hbusy. lia.
Qed.

Lemma find_available_port_past_last_port_witness :
  (Scrcpy.find_available_port Sample.env_no_port 65530 100 Sample.fresh).1
  = Raise OverflowError.
Proof.
  apply (find_available_port_past_last_port Sample.env_no_port Sample.fresh 65530 100).
  - lia.
  - simpl. lia.
  - intros q Hq. reflexivity.
Defined.

(** ** The mirroring session, path by path *)

(** X7. [scrcpy_stop] on any session returns without raising, creates no
    socket and no child, runs no command but the removal of the forward of a
    port it holds, and leaves every handle in the object where it was (a
    stopped session still refers to its closed sockets and its child);
    sockets and children that were gone stay gone and no thread comes to
    life. *)
Theorem scrcpy_stop_frame E st :
  ∃ st',
    Scrcpy.scrcpy_stop E st = (Ret tt, st')
    ∧ Spec.sockets_of (Scrcpy.self st') = Spec.sockets_of (Scrcpy.self st)
    ∧ Spec.workers_of (Scrcpy.self st') = Spec.workers_of (Scrcpy.self st)
    ∧ Scrcpy.android_process (Scrcpy.self st') = Scrcpy.android_process (Scrcpy.self st)
    ∧ Scrcpy.device_id (Scrcpy.self st') = Scrcpy.device_id (Scrcpy.self st)
    ∧ next_sock (Scrcpy.world st') = next_sock (Scrcpy.world st)
    ∧ next_proc (Scrcpy.world st') = next_proc (Scrcpy.world st)
    ∧ commands (Scrcpy.world st')
      = Spec.stop_commands (Scrcpy.self st) ++ commands (Scrcpy.world st)
    ∧ closed (Scrcpy.world st) ⊆ closed (Scrcpy.world st')
    ∧ exited (Scrcpy.world st) ⊆ exited (Scrcpy.world st')
    ∧ alive (Scrcpy.world st') ⊆ alive (Scrcpy.world st).
Proof.
  destruct st as [s w].
  destruct (scrcpy_stop_spec E s w)
    as (w' & Hstop & Hcmd & Hns & Hnp & Hcl & Hex & Hal & _).
  destruct (stopped_handles s) as (Hsk & Hwk & Hpr & _).
  exists {| Scrcpy.self := Spec.stopped s; Scrcpy.world := w' |}.
  cbn [Scrcpy.self Scrcpy.world].
  repeat (split; [assumption|]).
  split; [|repeat (split; [assumption|]); assumption].
  unfold Spec.stopped, Spec.released. destruct (Scrcpy.port_truthy _); reflexivity.
Qed.




(** X9. When the listing printed by the [devices] command does not contain
    the text "device" (whatever its exit status), [scrcpy_start] returns
    [False] having run that one command only: no push, no forward, no child,
    no socket, and the port, the handles and the device id of the session
    are untouched. *)
Theorem scrcpy_start_device_check_fails E cb br s w rc out err :
  env_run E (tick w) (Spec.devices_cmd s) = Completed rc out err →
  PyStr.contains "device" out = false →
  ∃ st',
    Scrcpy.scrcpy_start E cb br {| Scrcpy.self := s; Scrcpy.world := w |} = (Ret false, st')
    ∧ commands (Scrcpy.world st') = Spec.devices_cmd s :: commands w
    ∧ next_sock (Scrcpy.world st') = next_sock w
    ∧ next_proc (Scrcpy.world st') = next_proc w
    ∧ next_thread (Scrcpy.world st') = next_thread w
    ∧ Scrcpy.local_port (Scrcpy.self st') = Scrcpy.local_port s
    ∧ Scrcpy.android_process (Scrcpy.self st') = Scrcpy.android_process s
    ∧ Spec.sockets_of (Scrcpy.self st') = Spec.sockets_of s
    ∧ Scrcpy.device_id (Scrcpy.self st') = Scrcpy.device_id s.
Proof.
  unfold Spec.devices_cmd. intros Hrun Hno.
  unfold Scrcpy.scrcpy_start, Scrcpy.start_setup, Scrcpy.self_cmd, Scrcpy.subprocess_run.
  run_m. rewrite Hrun. cbn. rewrite Hno. cbn.
  eexists. split; [reflexivity|]. cbn. repeat split; reflexivity.
Qed.

Lemma scrcpy_start_device_check_fails_witness :
  ∃ st',
    Scrcpy.scrcpy_start Sample.env_silent 0 "1024000" Sample.fresh = (Ret false, st')
    ∧ commands (Scrcpy.world st') = [Spec.devices_cmd (Scrcpy.self Sample.fresh)].
Proof.
  destruct (scrcpy_start_device_check_fails Sample.env_silent 0%nat "1024000"
              (Scrcpy.self Sample.fresh) (Scrcpy.world Sample.fresh)
              1 "" "adb: no devices/emulators found")
    as (st' & H1 & H2 & _).
  - reflexivity.
  - reflexivity.
  - exists st'. split; assumption.
Defined.

(** X10. When the device check passes and the push command exits non-zero,
    [scrcpy_start] returns [False] having run the device check and the push
    only: no forward is created, no port is allocated, no child is spawned
    and no socket is opened. *)
Theorem scrcpy_start_push_fails E cb br s w rc out err rc2 out2 err2 :
  env_run E (tick w) (Spec.devices_cmd s) = Completed rc out err →
  PyStr.contains "device" out = true →
  env_run E (S (tick w)) (Spec.push_cmd s) = Completed rc2 out2 err2 →
  rc2 ≠ 0 →
  ∃ st',
    Scrcpy.scrcpy_start E cb br {| Scrcpy.self := s; Scrcpy.world := w |} = (Ret false, st')
    ∧ commands (Scrcpy.world st') = Spec.push_cmd s :: Spec.devices_cmd s :: commands w
    ∧ next_sock (Scrcpy.world st') = next_sock w
    ∧ next_proc (Scrcpy.world st') = next_proc w
    ∧ next_thread (Scrcpy.world st') = next_thread w
    ∧ Scrcpy.local_port (Scrcpy.self st') = Scrcpy.local_port s
    ∧ Scrcpy.android_process (Scrcpy.self st') = Scrcpy.android_process s
    ∧ Spec.sockets_of (Scrcpy.self st') = Spec.sockets_of s.
Proof.
  unfold Spec.devices_cmd, Spec.push_cmd. intros Hrun Hyes Hpush Hrc2.
  unfold Scrcpy.scrcpy_start, Scrcpy.start_setup, Scrcpy.push_server_to_device,
    Scrcpy.self_cmd, Scrcpy.subprocess_run.
  run_m. rewrite Hrun. cbn. rewrite Hyes. cbn. rewrite Hpush. cbn.
  replace (rc2 =? 0) with false by (symmetry; now apply Z.eqb_neq). cbn.
  eexists. split; [reflexivity|]. cbn. repeat split; reflexivity.
Qed.

Lemma scrcpy_start_push_fails_witness :
  ∃ st',
    Scrcpy.scrcpy_start Sample.env_absent 0 "1024000" Sample.fresh = (Ret false, st')
    ∧ Scrcpy.local_port (Scrcpy.self st') = None.
Proof.
  destruct (scrcpy_start_push_fails Sample.env_absent 0%nat "1024000"
              (Scrcpy.self Sample.fresh) (Scrcpy.world Sample.fresh)
              0 Sample.listing_empty "" 1 "" "adb: device 'ABC123' not found")
    as (st' & H1 & _ & _ & _ & _ & H2 & _).
  - reflexivity.
  - reflexivity.
  - reflexivity.
  - discriminate.
  - exists st'. split; assumption.
Defined.






(** ** The device manager, operation by operation *)

(** X12. [add_device] never overwrites: on an id that is already registered
    it returns [False] and changes nothing, so registering the same id twice
    keeps the first state and a running session; on a new id it returns
    [True], stores an idle entry under that id and touches no other entry. *)
Theorem add_device_keeps_first self d s1 s2 :
  let first := DeviceManager.add_device self d s1 in
  DeviceManager.add_device first.2 d s2 = (false, first.2)
  ∧ (is_Some (DeviceManager.devices self !! d) → first = (false, self))
  ∧ (DeviceManager.devices self !! d = None →
       first.1 = true
       ∧ DeviceManager.devices first.2 !! d
         = Some {| DeviceManager.id := d; DeviceManager.state := s1;
                   DeviceManager.is_mirroring := false; DeviceManager.scrcpy := None |}
       ∧ ∀ d', d' ≠ d →
           DeviceManager.devices first.2 !! d' = DeviceManager.devices self !! d').
Proof.
  intros first. subst first.
  destruct (DeviceManager.devices self !! d) as [e|] eqn:He.
  - assert (DeviceManager.add_device self d s1 = (false, self)) as ->
      by (unfold DeviceManager.add_device; now rewrite He).
    simpl. split; [|split].
    + unfold DeviceManager.add_device. now rewrite He.
    + reflexivity.
    + discriminate.
  - assert (DeviceManager.add_device self d s1
            = (true,
               DeviceManager.set_devices
                 (<[d := {| DeviceManager.id := d; DeviceManager.state := s1;
                            DeviceManager.is_mirroring := false;
                            DeviceManager.scrcpy := None |}]>
                    (DeviceManager.devices self)) self)) as ->
      by (unfold DeviceManager.add_device; now rewrite He).
    simpl. split; [|split].
    + unfold DeviceManager.add_device. simpl. now rewrite lookup_insert_eq.
    + intros [x Hx]. discriminate.
    + intros _. split; [reflexivity|]. split; [apply lookup_insert_eq|].
      intros d' Hne. now apply lookup_insert_ne.
Qed.

Lemma set_devices_same self :
  DeviceManager.set_devices (DeviceManager.devices self) self = self.
Proof. now destruct self. Qed.

(** X13. [remove_device] never raises and always ends with the id absent
    from the registry and every other entry as it was; a session stored for
    the device is stopped first, so that none of its sockets and not its
    child is live afterwards, and without a stored session the world is not
    touched at all. *)
Theorem remove_device_removes E self w d :
  ∃ w',
    DeviceManager.remove_device E self w d
    = (Ret tt, (DeviceManager.set_devices (delete d (DeviceManager.devices self)) self, w'))
    ∧ (∀ e session,
         DeviceManager.devices self !! d = Some e →
         DeviceManager.scrcpy e = Some session →
         (∀ x, x ∈ Spec.sockets_of session → ¬ sock_live w' x)
         ∧ (∀ p, Scrcpy.android_process session = Some p → ¬ proc_live w' p))
    ∧ ((∀ e, DeviceManager.devices self !! d = Some e → DeviceManager.scrcpy e = None) →
         w' = w).
Proof.
  unfold DeviceManager.remove_device.
  destruct (DeviceManager.devices self !! d) as [e|] eqn:He.
  - destruct (DeviceManager.scrcpy e) as [session|] eqn:Hs.
    + destruct (scrcpy_stop_spec E session w)
        as (w' & Hstop & _ & _ & _ & _ & _ & _ & _ & Hcl & Hex & _).
      rewrite Hstop. exists w'. cbn [Scrcpy.world]. split; [reflexivity|]. split.
      * intros e' session' [= <-] Hs'. rewrite Hs in Hs'. injection Hs' as <-.
        split.
        -- intros x Hx [_ Hlive]. auto.
        -- intros p Hp [_ Hlive]. eauto.
      * intros Hnone. specialize (Hnone e eq_refl). congruence.
    + exists w. split; [reflexivity|]. split; [|reflexivity].
      intros e' session' [= <-] Hs'. congruence.
  - exists w. split; [|split; [|reflexivity]].
    + rewrite delete_id by assumption. now rewrite set_devices_same.
    + intros e' session' He'. discriminate.
Qed.

(** *** No method of the session changes the device it talks to *)









